(** * analise-financeira-ifood: numeric normalisation, metrics and the
      two-tier persistence layer

    A shallow embedding of [src/lib/utils.ts] (normalizeNumber,
    calculateMetrics, validateFormData) and of [src/lib/data.ts] (the
    Supabase / localStorage gateway), followed by the properties the
    specification states about them.

    JavaScript numbers are IEEE 754 binary64 values and are modelled by
    Rocq's primitive floats, which are the same format.  JavaScript strings
    are sequences of UTF-16 code units and are modelled as lists of code
    units. *)

From Stdlib Require Import ZArith NArith List String Ascii Bool Lia Floats.
From stdpp Require Import base option list strings gmap.

Set Warnings "-inexact-float".

(** ** JavaScript strings and the built-ins the sources call *)

Module JS.

(** A code unit of a JavaScript string. *)
Definition codeUnit := N.
Definition jsstring := list codeUnit.

(** The code units of an ASCII literal. *)
Definition js (s : string) : jsstring :=
  List.map N_of_ascii (list_ascii_of_string s).

Definition cu_dollar : codeUnit := 36%N.
Definition cu_plus : codeUnit := 43%N.
Definition cu_comma : codeUnit := 44%N.
Definition cu_minus : codeUnit := 45%N.
Definition cu_dot : codeUnit := 46%N.
Definition cu_0 : codeUnit := 48%N.
Definition cu_9 : codeUnit := 57%N.
Definition cu_E : codeUnit := 69%N.
Definition cu_R : codeUnit := 82%N.
Definition cu_e : codeUnit := 101%N.

(** [\d] of a regular expression without the unicode flag: 0-9. *)
Definition isDigit (c : codeUnit) : bool := (cu_0 <=? c)%N && (c <=? cu_9)%N.

(** WhiteSpace and LineTerminator of ECMA-262: what [\s] matches and what
    [String.prototype.trim] and [parseFloat] strip. *)
Definition isWhiteSpace (c : codeUnit) : bool :=
  ((9 <=? c)%N && (c <=? 13)%N)
  || (c =? 32)%N || (c =? 160)%N || (c =? 5760)%N
  || ((8192 <=? c)%N && (c <=? 8202)%N)
  || (c =? 8232)%N || (c =? 8233)%N || (c =? 8239)%N || (c =? 8287)%N
  || (c =? 12288)%N || (c =? 65279)%N.

Fixpoint trimStart (s : jsstring) : jsstring :=
  match s with
  | c :: r => if isWhiteSpace c then trimStart r else s
  | [] => []
  end.

(** [s.trim()] *)
Definition trim (s : jsstring) : jsstring :=
  rev (trimStart (rev (trimStart s))).

(** [s.includes(c)] for a one-unit needle. *)
Definition includes (c : codeUnit) (s : jsstring) : bool := existsb (N.eqb c) s.

(** [s.replace(/c/g, "")] for a one-unit pattern. *)
Definition removeAll (c : codeUnit) (s : jsstring) : jsstring :=
  List.filter (fun x => negb (x =? c)%N) s.

(** [s.replace(c, r)] with a string pattern: only the first occurrence. *)
Fixpoint replaceFirst (c : codeUnit) (r : jsstring) (s : jsstring) : jsstring :=
  match s with
  | [] => []
  | x :: s' => if (x =? c)%N then r ++ s' else x :: replaceFirst c r s'
  end.

(** [(s.match(/c/g) || []).length] *)
Definition countOf (c : codeUnit) (s : jsstring) : nat :=
  length (List.filter (N.eqb c) s).

(** [s.split(c)] for a one-unit separator. *)
Fixpoint split (c : codeUnit) (s : jsstring) : list jsstring :=
  match s with
  | [] => [[]]
  | x :: s' =>
      if (x =? c)%N then [] :: split c s'
      else match split c s' with
           | p :: ps => (x :: p) :: ps
           | [] => [[x]]
           end
  end.

(** The longest prefix whose units satisfy [p], and the rest. *)
Fixpoint span (p : codeUnit -> bool) (s : jsstring) : jsstring * jsstring :=
  match s with
  | c :: r => if p c then let (a, b) := span p r in (c :: a, b) else ([], s)
  | [] => ([], [])
  end.

Fixpoint startsWith (p s : jsstring) : bool :=
  match p, s with
  | [], _ => true
  | a :: p', b :: s' => (a =? b)%N && startsWith p' s'
  | _ :: _, [] => false
  end.

(** The value of a run of decimal digits. *)
Definition digitsValue (ds : jsstring) : Z :=
  fold_left (fun acc c => acc * 10 + (Z.of_N c - 48))%Z ds 0%Z.

(** *** Decimal to binary64

    [parseFloat] returns the Number value for the mathematical value of the
    literal: the binary64 nearest to it, ties to even, infinity beyond the
    range.  [decimalToDouble neg m e10] is that value for [m * 10^e10]. *)

(** [n / d] rounded to the nearest integer, ties to even ([0 <= n], [0 < d]). *)
Definition roundDiv (n d : Z) : Z :=
  let q := (n / d)%Z in
  match (2 * (n mod d) ?= d)%Z with
  | Lt => q
  | Gt => (q + 1)%Z
  | Eq => if Z.even q then q else (q + 1)%Z
  end.

Definition decimalToDouble (neg : bool) (m e10 : Z) : float :=
  let signed (f : float) := if neg then (- f)%float else f in
  if (m =? 0)%Z then signed 0%float
  else
    let num := if (0 <=? e10)%Z then (m * 10 ^ e10)%Z else m in
    let den := if (0 <=? e10)%Z then 1%Z else (10 ^ (- e10))%Z in
    (* position of the leading bit of num / den *)
    let l0 := (Z.log2 num - Z.log2 den)%Z in
    let below :=
      if (0 <=? l0)%Z then (num <? den * 2 ^ l0)%Z
      else (num * 2 ^ (- l0) <? den)%Z in
    let l := if below then (l0 - 1)%Z else l0 in
    (* 53 significant bits, exponent not below that of the subnormals *)
    let e := Z.max (l - 52) (-1074) in
    let q :=
      if (0 <=? e)%Z then roundDiv num (den * 2 ^ e)
      else roundDiv (num * 2 ^ (- e)) den in
    match q with
    | Zpos p => SF2Prim (S754_finite neg p e)
    | _ => signed 0%float
    end.

(** [[eE][+-]?digits]: the exponent and the rest, when there is one. *)
Definition exponentPart (s : jsstring) : Z :=
  match s with
  | c :: r =>
      if (c =? cu_e)%N || (c =? cu_E)%N then
        let '(sg, r') :=
          match r with
          | d :: r0 =>
              if (d =? cu_minus)%N then (true, r0)
              else if (d =? cu_plus)%N then (false, r0)
              else (false, r)
          | [] => (false, [])
          end in
        let (ds, _) := span isDigit r' in
        match ds with
        | [] => 0%Z
        | _ => if sg then (- digitsValue ds)%Z else digitsValue ds
        end
      else 0%Z
  | [] => 0%Z
  end.

(** [parseFloat(s)]: leading white space is skipped, the longest prefix that
    is a StrDecimalLiteral is read, and NaN is returned when there is none. *)
Definition parseFloat (s : jsstring) : float :=
  let s0 := trimStart s in
  let '(neg, s1) :=
    match s0 with
    | c :: r =>
        if (c =? cu_minus)%N then (true, r)
        else if (c =? cu_plus)%N then (false, r)
        else (false, s0)
    | [] => (false, [])
    end in
  if startsWith (js "Infinity") s1 then
    (if neg then neg_infinity else infinity)
  else
    let (ip, r1) := span isDigit s1 in
    let (fp, r2) :=
      match r1 with
      | c :: r => if (c =? cu_dot)%N then span isDigit r else ([], r1)
      | [] => ([], [])
      end in
    match ip ++ fp with
    | [] => nan
    | ds => decimalToDouble neg (digitsValue ds)
              (exponentPart r2 - Z.of_nat (length fp))
    end.

(** [Number.isFinite(n)] *)
Definition isFinite (n : float) : bool := is_finite n.

(** Truthiness of a number: everything but 0, -0 and NaN. *)
Definition truthy (n : float) : bool := negb (is_nan n || is_zero n).

(** [n || 0] *)
Definition orZero (n : float) : float := if truthy n then n else 0%float.

End JS.


(** ** src/lib/utils.ts *)

Module Utils.
Import JS.

(** The argument of [normalizeNumber]: [string | number]. *)
Inductive value :=
| VStr (s : jsstring)
| VNum (n : float).

(** The first two replacements of [normalizeNumber]:
    [.replace(/[R$\s]/g, "")] and [.replace(/[^\d.,-]/g, "")]. *)
Definition removeCurrency (s : jsstring) : jsstring :=
  List.filter
    (fun c => negb ((c =? cu_R)%N || (c =? cu_dollar)%N || isWhiteSpace c)) s.

Definition isNumericUnit (c : codeUnit) : bool :=
  isDigit c || (c =? cu_dot)%N || (c =? cu_comma)%N || (c =? cu_minus)%N.

Definition keepNumeric (s : jsstring) : jsstring :=
  List.filter isNumericUnit s.

(** [parts[1] && parts[1].length === 3 && !parts[1].includes(',')] *)
Definition isThousandsGroup (parts : list jsstring) : bool :=
  match nth_error parts 1 with
  | Some p =>
      negb (Nat.eqb (length p) 0) && Nat.eqb (length p) 3
      && negb (includes cu_comma p)
  | None => false
  end.

(** The chain of [if]s that rewrites [clean] according to the separators
    it holds. *)
Definition separators (clean : jsstring) : jsstring :=
  if includes cu_comma clean && includes cu_dot clean then
    replaceFirst cu_comma [cu_dot] (removeAll cu_dot clean)
  else if includes cu_comma clean && negb (includes cu_dot clean) then
    replaceFirst cu_comma [cu_dot] clean
  else if includes cu_dot clean && negb (includes cu_comma clean) then
    let dotCount := countOf cu_dot clean in
    if Nat.ltb 1 dotCount then removeAll cu_dot clean
    else if Nat.eqb dotCount 1 then
      let parts := split cu_dot clean in
      if isThousandsGroup parts then replaceFirst cu_dot [] clean else clean
    else clean
  else clean.

(** The text handed to [parseFloat]. *)
Definition cleaned (s : jsstring) : jsstring :=
  separators (keepNumeric (removeCurrency (trim s))).

Definition normalizeNumber (value : value) : float :=
  match value with
  | VNum n => n
  | VStr [] => 0%float
  | VStr s =>
      let n := parseFloat (cleaned s) in
      if isFinite n then n else 0%float
  end.

(** Modelled from the spec: [FormData] of src/lib/types.ts, which is not
    among the sources; section 3 gives its fields.  A numeric field is a
    JavaScript number or is absent ([undefined]). *)
Record FormData := {
  vbv : option float;
  valoresPagosCliente : option float;
  vrl : option float;
  vrlj : option float;
  additionalValues : list (string * float);
  periodo : string;
  tenantId : string
}.

(** Modelled from the spec: [CalculatedData] of src/lib/types.ts. *)
Record CalculatedData := {
  rbr : float;
  rol : float;
  rentabilidadeLiquida : float;
  retencaoIfoodPercentual : float;
  valorRetidoIfood : float
}.

(** [Number(x)] for a number or [undefined]. *)
Definition Number (x : option float) : float :=
  match x with
  | Some n => n
  | None => nan
  end.

Definition calculateMetrics (data : FormData) : CalculatedData :=
  let vbv := orZero (Number (vbv data)) in
  let valoresPagosCliente := orZero (Number (valoresPagosCliente data)) in
  let vrl := orZero (Number (vrl data)) in
  let vrlj := orZero (Number (vrlj data)) in
  let rbr := (vbv - valoresPagosCliente)%float in
  let rol := (vrl + vrlj)%float in
  let rentabilidadeLiquida :=
    if (0 <? rbr)%float then (rol / rbr * 100)%float else 0%float in
  let retencaoIfoodPercentual := (100 - rentabilidadeLiquida)%float in
  let valorRetidoIfood := (rbr - rol)%float in
  {| rbr := rbr;
     rol := rol;
     rentabilidadeLiquida := rentabilidadeLiquida;
     retencaoIfoodPercentual := retencaoIfoodPercentual;
     valorRetidoIfood := valorRetidoIfood |}.

(** An entry of [ValidationResult.errors]. *)
Record FieldError := {
  field : string;
  message : string
}.

(** Modelled from the spec: [ValidationResult] of src/lib/types.ts. *)
Record ValidationResult := {
  isValid : bool;
  errors : list FieldError;
  warnings : list string
}.

(** [if (c) xs.push(x)] on the list built so far. *)
Definition pushIf {A} (c : bool) (x : A) (xs : list A) : list A :=
  if c then xs ++ [x] else xs.

Definition validateFormData (data : FormData) : ValidationResult :=
  let vbv := orZero (Number (vbv data)) in
  let vpc := orZero (Number (valoresPagosCliente data)) in
  let vrl := orZero (Number (vrl data)) in
  let vrlj := orZero (Number (vrlj data)) in
  let rbr := (vbv - vpc)%float in
  let rol := (vrl + vrlj)%float in
  let errors := [] in
  let warnings := [] in
  let errors :=
    pushIf (vbv <=? 0)%float
      {| field := "vbv"; message := "VBV deve ser maior que zero." |} errors in
  let errors :=
    pushIf (vpc <? 0)%float
      {| field := "valoresPagosCliente";
         message := "Valores pagos pelo cliente não pode ser negativo." |}
      errors in
  let errors :=
    pushIf (rbr <=? 0)%float
      {| field := "base";
         message :=
           "Receita Bruta Real (VBV - valores pagos) deve ser positiva." |}
      errors in
  let warnings :=
    pushIf (rbr <? rol)%float
      "ROL maior do que a Receita Bruta Real. Revise os números." warnings in
  {| isValid := Nat.eqb (length errors) 0;
     errors := errors;
     warnings := warnings |}.

(** [generateTestData()] without the period, which is read from the clock. *)
Definition generateTestData (periodo : string) : FormData :=
  {| vbv := Some 100000%float;
     valoresPagosCliente := Some 4000%float;
     vrl := Some 70000%float;
     vrlj := Some 5000%float;
     additionalValues := [];
     periodo := periodo;
     tenantId := "demo-tenant" |}.

End Utils.


(** ** src/lib/data.ts: Supabase with a localStorage fallback *)

(** Modelled from the spec: [User] of src/lib/types.ts (section 3). *)
Module User.
Record t := {
  id : string;
  email : string;
  name : string;
  tenantId : string;
  role : string;
  createdAt : string
}.
End User.

(** The two nested objects of a stored analysis, as values at run time.

    The gateway writes them with [JSON.stringify] and reads them back with
    [JSON.parse] (data.ts lines 171-174, 220, 256-260), and JSON has no
    text for every number: a field typed [number] can come back as [null].
    So a number field is kept here as JavaScript has it at run time. *)
Module Payload.

(** A number field: missing ([undefined]), [null], or a number. *)
Inductive slot :=
| Absent
| Null
| Num (n : float).

(** Modelled from the spec: the fields of [FormData] (section 3). *)
Record FormData := {
  vbv : slot;
  valoresPagosCliente : slot;
  vrl : slot;
  vrlj : slot;
  additionalValues : list (string * slot);
  periodo : string;
  tenantId : string
}.

(** Modelled from the spec: the fields of [CalculatedData] (section 3). *)
Record CalculatedData := {
  rbr : slot;
  rol : slot;
  rentabilidadeLiquida : slot;
  retencaoIfoodPercentual : slot;
  valorRetidoIfood : slot
}.

Definition ofNumber (x : option float) : slot :=
  match x with
  | Some n => Num n
  | None => Absent
  end.

(** The form of the page, as the object handed to the gateway. *)
Definition ofFormData (d : Utils.FormData) : FormData :=
  {| vbv := ofNumber (Utils.vbv d);
     valoresPagosCliente := ofNumber (Utils.valoresPagosCliente d);
     vrl := ofNumber (Utils.vrl d);
     vrlj := ofNumber (Utils.vrlj d);
     additionalValues :=
       (λ kv, (fst kv, Num (snd kv))) <$> Utils.additionalValues d;
     periodo := Utils.periodo d;
     tenantId := Utils.tenantId d |}.

(** The result of [calculateMetrics], as the object handed to the gateway. *)
Definition ofCalculatedData (c : Utils.CalculatedData) : CalculatedData :=
  {| rbr := Num (Utils.rbr c);
     rol := Num (Utils.rol c);
     rentabilidadeLiquida := Num (Utils.rentabilidadeLiquida c);
     retencaoIfoodPercentual := Num (Utils.retencaoIfoodPercentual c);
     valorRetidoIfood := Num (Utils.valorRetidoIfood c) |}.

(** [JSON.parse(JSON.stringify(n))] for a number: [JSON.stringify] writes
    NaN, Infinity and -Infinity as [null] and -0 as [0]; every other number
    is written with digits that read back as the same number. *)
Definition jsonNumber (n : float) : slot :=
  if is_finite n then Num (if is_zero n then 0%float else n) else Null.

(** [JSON.parse(JSON.stringify(x))] for a field: a missing property stays
    missing, [null] stays [null]. *)
Definition jsonSlot (x : slot) : slot :=
  match x with
  | Absent => Absent
  | Null => Null
  | Num n => jsonNumber n
  end.

(** In an object used as a map, [JSON.stringify] leaves out a key whose
    value is [undefined]. *)
Definition jsonEntries (kvs : list (string * slot)) : list (string * slot) :=
  (λ kv, (fst kv, jsonSlot (snd kv)))
    <$> List.filter (λ kv, match snd kv with Absent => false | _ => true end)
          kvs.

Definition jsonFormData (d : FormData) : FormData :=
  {| vbv := jsonSlot (vbv d);
     valoresPagosCliente := jsonSlot (valoresPagosCliente d);
     vrl := jsonSlot (vrl d);
     vrlj := jsonSlot (vrlj d);
     additionalValues := jsonEntries (additionalValues d);
     periodo := periodo d;
     tenantId := tenantId d |}.

Definition jsonCalculatedData (c : CalculatedData) : CalculatedData :=
  {| rbr := jsonSlot (rbr c);
     rol := jsonSlot (rol c);
     rentabilidadeLiquida := jsonSlot (rentabilidadeLiquida c);
     retencaoIfoodPercentual := jsonSlot (retencaoIfoodPercentual c);
     valorRetidoIfood := jsonSlot (valorRetidoIfood c) |}.

End Payload.

(** Modelled from the spec: [AnalysisData] of src/lib/types.ts (section 3).
    A row of the table historicodeanalise holds the same six values under
    snake_case column names, so rows and records share this type. *)
Module AnalysisData.
Record t := {
  id : string;
  userId : string;
  tenantId : string;
  formData : Payload.FormData;
  calculatedData : Payload.CalculatedData;
  timestamp : string
}.

(** [JSON.parse(JSON.stringify(a))]: what a record is once it has been
    through localStorage.  Text survives as it is; numbers as
    [Payload.jsonNumber] says. *)
Definition viaJSON (a : t) : t :=
  {| id := id a;
     userId := userId a;
     tenantId := tenantId a;
     formData := Payload.jsonFormData (formData a);
     calculatedData := Payload.jsonCalculatedData (calculatedData a);
     timestamp := timestamp a |}.
End AnalysisData.

Module Data.

(** *** The world the gateway runs in *)

(** [typeof window !== 'undefined'] and the two settings of [process.env]. *)
Record Env := {
  window : bool;
  NEXT_PUBLIC_SUPABASE_URL : option string;
  NEXT_PUBLIC_SUPABASE_ANON_KEY : option string
}.

(** Modelled from the spec: the remote backend of section 6, reached
    through the client of src/lib/supabase.ts, which is not among the
    sources.  It holds the session of [supabase.auth] and the two tables;
    both tables have [id] as their key (the conflict target of the upserts)
    and keep the values they are given. *)
Record Supabase := {
  authUser : option string;
  Usuario : list User.t;
  historicodeanalise : list AnalysisData.t
}.

(** What a localStorage entry holds.  An entry is a string; it is
    represented by what [JSON.parse] makes of it.

    [Analyses arr] is the text of a JSON array of analysis records with its
    numbers as [JSON.stringify] writes them (no [-0], no digits beyond the
    range of a number): the records of [arr] read back as they are when the
    gateway writes the array again ([DataSpec.stored_again]).  Every array
    the gateway writes is of that kind ([DataSpec.asWritten_calls]).  An
    array with an element that is not an analysis record, such as [[null]],
    is not among these values: a storage that something else filled with
    one is outside the model. *)
Inductive Item :=
| Analyses (arr : list AnalysisData.t)   (* a JSON array of analyses *)
| UserJson (u : User.t)                  (* a JSON object: a user *)
| OtherJson                              (* any other JSON value *)
| NotJson                                (* text JSON.parse rejects *)
| EmptyText.                             (* the empty string *)

Record World := {
  env : Env;
  supabase : Supabase;
  localStorage : gmap string Item
}.

(** Whether one remote request goes through: [Down] is a request that
    throws or comes back with an error (network, credentials). *)
Inductive Link := Up | Down.

(** Which store served a call, as the call logs it. *)
Inductive Path := NoWindow | ViaSupabase | ViaLocalStorage.

(** The settled state of an async function. *)
Inductive Promise (A : Type) :=
| Fulfilled (a : A)
| Rejected.
Arguments Fulfilled {A} a.
Arguments Rejected {A}.

Definition setSupabase (s : Supabase) (w : World) : World :=
  {| env := env w; supabase := s; localStorage := localStorage w |}.

Definition setLocalStorage (ls : gmap string Item) (w : World) : World :=
  {| env := env w; supabase := supabase w; localStorage := ls |}.

Definition setAuthUser (a : option string) (s : Supabase) : Supabase :=
  {| authUser := a; Usuario := Usuario s;
     historicodeanalise := historicodeanalise s |}.

Definition setUsuario (us : list User.t) (s : Supabase) : Supabase :=
  {| authUser := authUser s; Usuario := us;
     historicodeanalise := historicodeanalise s |}.

Definition setHistorico (rows : list AnalysisData.t) (s : Supabase)
  : Supabase :=
  {| authUser := authUser s; Usuario := Usuario s;
     historicodeanalise := rows |}.

(** The world a call leaves: a rejected call has written nothing. *)
Definition after (w : World) (p : Promise (Path * World)) : World :=
  match p with
  | Fulfilled (_, w') => w'
  | Rejected => w
  end.

(** *** The Supabase client, on the tables

    Modelled from the spec: the operations section 6 lists for the remote
    backend (select with filters and order, insert, upsert on the primary
    key, delete by filter), as the calls of data.ts use them. *)

(** [.insert(row)]: refused when the key is taken. *)
Definition insertRow (a : AnalysisData.t) (rows : list AnalysisData.t)
  : option (list AnalysisData.t) :=
  if decide (Exists (λ r, AnalysisData.id r = AnalysisData.id a) rows)
  then None
  else Some (rows ++ [a]).

(** [.upsert(row, { onConflict: 'id' })]: replace the row with that key,
    or add one. *)
Definition upsertRow (rows : list AnalysisData.t) (a : AnalysisData.t)
  : list AnalysisData.t :=
  if decide (Exists (λ r, AnalysisData.id r = AnalysisData.id a) rows)
  then (λ r, if decide (AnalysisData.id r = AnalysisData.id a) then a else r)
         <$> rows
  else rows ++ [a].

(** [.upsert(rows, { onConflict: 'id' })], row after row. *)
Definition upsertRows (batch rows : list AnalysisData.t)
  : list AnalysisData.t :=
  fold_left upsertRow batch rows.

Definition upsertUser (us : list User.t) (u : User.t) : list User.t :=
  if decide (Exists (λ r, User.id r = User.id u) us)
  then (λ r, if decide (User.id r = User.id u) then u else r) <$> us
  else us ++ [u].

(** [.delete().eq('id', analysisId).eq('tenant_id', tenantId)] *)
Definition deleteRows (analysisId tenantId : string)
  (rows : list AnalysisData.t) : list AnalysisData.t :=
  filter (λ r, ¬ (AnalysisData.id r = analysisId
                  ∧ AnalysisData.tenantId r = tenantId)) rows.

(** [.order('timestamp', { ascending: false })]: a stable sort, later
    timestamps first; timestamps compare as text. *)
Fixpoint insertDesc (a : AnalysisData.t) (rows : list AnalysisData.t)
  : list AnalysisData.t :=
  match rows with
  | [] => [a]
  | r :: rows' =>
      if String.ltb (AnalysisData.timestamp a) (AnalysisData.timestamp r)
      then r :: insertDesc a rows'
      else a :: rows
  end.

Definition orderDesc (rows : list AnalysisData.t) : list AnalysisData.t :=
  foldr insertDesc [] rows.

(** [.select('*').eq('tenant_id', tenantId).order(...)] *)
Definition selectByTenant (tenantId : string) (rows : list AnalysisData.t)
  : list AnalysisData.t :=
  orderDesc (filter (λ r, AnalysisData.tenantId r = tenantId) rows).

(** [.select('*').eq('user_id', userId).eq('tenant_id', tenantId).order(...)] *)
Definition selectByUser (userId tenantId : string)
  (rows : list AnalysisData.t) : list AnalysisData.t :=
  orderDesc
    (filter (λ r, AnalysisData.userId r = userId)
       (filter (λ r, AnalysisData.tenantId r = tenantId) rows)).

(** *** localStorage *)

Definition userKey : string := "ifood-user".

(** [`ifood-analyses-${tenantId}`] *)
Definition analysesKey (tenantId : string) : string :=
  "ifood-analyses-" +:+ tenantId.

(** [JSON.parse(localStorage.getItem(key) || '[]')] used as an array:
    [None] when the call throws, on text that is not JSON or on a value
    without [push] and [filter]. *)
Definition parseArrayOrEmpty (raw : option Item)
  : option (list AnalysisData.t) :=
  match raw with
  | None | Some EmptyText => Some []
  | Some (Analyses arr) => Some arr
  | Some (UserJson _) | Some OtherJson | Some NotJson => None
  end.

(** The fallback of [loadAnalyses]: nothing stored, unreadable text and
    values that are not arrays all give the empty list. *)
Definition readAnalyses (raw : option Item) : list AnalysisData.t :=
  match raw with
  | Some (Analyses arr) => arr
  | _ => []
  end.

(** *** The gateway *)

(** [!!process.env.X] *)
Definition isSet (v : option string) : bool :=
  match v with
  | Some s => negb (String.eqb s "")
  | None => false
  end.

Definition isSupabaseAvailable (e : Env) : bool :=
  if negb (window e) then false
  else
    let hasUrl := isSet (NEXT_PUBLIC_SUPABASE_URL e) in
    let hasKey := isSet (NEXT_PUBLIC_SUPABASE_ANON_KEY e) in
    hasUrl && hasKey.

Definition getCurrentUser (link : Link) (w : World) : option User.t :=
  if negb (window (env w)) then None
  else
    let remote :=
      if isSupabaseAvailable (env w) then
        match link, authUser (supabase w) with
        | Up, Some uid =>
            match filter (λ u, User.id u = uid) (Usuario (supabase w)) with
            | [userData] => Some userData
            | _ => None
            end
        | _, _ => None
        end
      else None in
    match remote with
    | Some u => Some u
    | None =>
        match localStorage w !! userKey with
        | Some (UserJson user) =>
            if negb (String.eqb (User.id user) "")
               && negb (String.eqb (User.tenantId user) "")
            then Some user else None
        | _ => None
        end
    end.

Definition saveUser (link : Link) (user : User.t) (w : World)
  : Promise (Path * World) :=
  if negb (window (env w)) then Fulfilled (NoWindow, w)
  else
    let cached := <[userKey := UserJson user]> (localStorage w) in
    match isSupabaseAvailable (env w), link with
    | true, Up =>
        let s := setUsuario (upsertUser (Usuario (supabase w)) user)
                   (supabase w) in
        Fulfilled (ViaSupabase, setLocalStorage cached (setSupabase s w))
    | _, _ => Fulfilled (ViaLocalStorage, setLocalStorage cached w)
    end.

Definition logout (link : Link) (w : World) : World :=
  if negb (window (env w)) then w
  else
    let w1 :=
      match isSupabaseAvailable (env w), link with
      | true, Up => setSupabase (setAuthUser None (supabase w)) w
      | _, _ => w
      end in
    setLocalStorage (delete userKey (localStorage w1)) w1.

(** On the fallback, [arr.push(analysis)] and
    [setItem(key, JSON.stringify(arr))]: the entry then holds the records
    it held and the new one as JSON gives it back. *)
Definition saveAnalysis (link : Link) (analysis : AnalysisData.t) (w : World)
  : Promise (Path * World) :=
  if negb (window (env w)) then Fulfilled (NoWindow, w)
  else
    let inserted :=
      match isSupabaseAvailable (env w), link with
      | true, Up => insertRow analysis (historicodeanalise (supabase w))
      | _, _ => None
      end in
    match inserted with
    | Some rows =>
        Fulfilled (ViaSupabase, setSupabase (setHistorico rows (supabase w)) w)
    | None =>
        let key := analysesKey (AnalysisData.tenantId analysis) in
        match parseArrayOrEmpty (localStorage w !! key) with
        | Some arr =>
            Fulfilled
              (ViaLocalStorage,
               setLocalStorage
                 (<[key := Analyses (arr ++ [AnalysisData.viaJSON analysis])]>
                    (localStorage w)) w)
        | None => Rejected
        end
    end.

Definition loadAnalyses (link : Link) (tenantId : string) (w : World)
  : Path * list AnalysisData.t :=
  if negb (window (env w)) then (NoWindow, [])
  else
    match isSupabaseAvailable (env w), link with
    | true, Up =>
        (ViaSupabase,
         selectByTenant tenantId (historicodeanalise (supabase w)))
    | _, _ =>
        let key := analysesKey tenantId in
        (ViaLocalStorage, readAnalyses (localStorage w !! key))
    end.

(** On the fallback, [arr.filter(a => a.id !== analysisId)] and
    [setItem(key, JSON.stringify(filtered))]: the records kept are stored
    records and read back as they are. *)
Definition deleteAnalysis (link : Link) (analysisId tenantId : string)
  (w : World) : Promise (Path * World) :=
  if negb (window (env w)) then Fulfilled (NoWindow, w)
  else
    match isSupabaseAvailable (env w), link with
    | true, Up =>
        let rows :=
          deleteRows analysisId tenantId (historicodeanalise (supabase w)) in
        Fulfilled (ViaSupabase, setSupabase (setHistorico rows (supabase w)) w)
    | _, _ =>
        let key := analysesKey tenantId in
        match parseArrayOrEmpty (localStorage w !! key) with
        | Some arr =>
            let filtered :=
              filter (λ a, AnalysisData.id a ≠ analysisId) arr in
            Fulfilled
              (ViaLocalStorage,
               setLocalStorage
                 (<[key := Analyses filtered]> (localStorage w)) w)
        | None => Rejected
        end
    end.

(** [s.includes(t)] on text. *)
Fixpoint includesText (t s : string) : bool :=
  String.prefix t s
  || match s with
     | EmptyString => false
     | String _ s' => includesText t s'
     end.

Definition getAnalysisByPeriod (link : Link) (tenantId contains : string)
  (w : World) : list AnalysisData.t :=
  let allAnalyses := snd (loadAnalyses link tenantId w) in
  List.filter
    (λ a, includesText contains (Payload.periodo (AnalysisData.formData a)))
    allAnalyses.

(** The fallback calls [loadAnalyses], which makes a request of its own:
    [link'] is the fate of that one. *)
Definition getAnalysesByUser (link link' : Link) (userId tenantId : string)
  (w : World) : list AnalysisData.t :=
  if negb (window (env w)) then []
  else
    match isSupabaseAvailable (env w), link with
    | true, Up =>
        selectByUser userId tenantId (historicodeanalise (supabase w))
    | _, _ =>
        let allAnalyses := snd (loadAnalyses link' tenantId w) in
        filter (λ a, AnalysisData.userId a = userId) allAnalyses
    end.

Definition syncLocalStorageToSupabase (link : Link) (tenantId : string)
  (w : World) : World :=
  if negb (isSupabaseAvailable (env w)) then w
  else
    let key := analysesKey tenantId in
    match localStorage w !! key with
    | Some (Analyses localAnalyses) =>
        match localAnalyses, link with
        | [], _ => w
        | _ :: _, Up =>
            let rows :=
              upsertRows localAnalyses (historicodeanalise (supabase w)) in
            setSupabase (setHistorico rows (supabase w)) w
        | _ :: _, Down => w
        end
    | _ => w
    end.

(** *** Sequences of calls *)

(** The public functions that write, each with the fate of its request.
    The four readers ([getCurrentUser], [loadAnalyses],
    [getAnalysisByPeriod], [getAnalysesByUser]) return a value and leave
    the world as it is. *)
Inductive Call :=
| CallSaveUser (link : Link) (user : User.t)
| CallLogout (link : Link)
| CallSaveAnalysis (link : Link) (analysis : AnalysisData.t)
| CallDeleteAnalysis (link : Link) (analysisId tenantId : string)
| CallSync (link : Link) (tenantId : string).

Definition call (w : World) (c : Call) : World :=
  match c with
  | CallSaveUser link user => after w (saveUser link user w)
  | CallLogout link => logout link w
  | CallSaveAnalysis link a => after w (saveAnalysis link a w)
  | CallDeleteAnalysis link i t => after w (deleteAnalysis link i t w)
  | CallSync link t => syncLocalStorageToSupabase link t w
  end.

Definition calls (cs : list Call) (w : World) : World := fold_left call cs w.

End Data.

(** ** src/components/ui/currency-input.tsx *)

Module CurrencyInput.
Import JS Utils.

(** What [handleKeyDown] reads of the keyboard event. *)
Record KeyboardEvent := {
  key : jsstring;
  ctrlKey : bool;
  metaKey : bool
}.

Fixpoint sameText (s t : jsstring) : bool :=
  match s, t with
  | [], [] => true
  | a :: s', b :: t' => (a =? b)%N && sameText s' t'
  | _, _ => false
  end.

Definition allowedKeys : list jsstring :=
  [ js "Backspace"; js "Delete"; js "Tab"; js "Escape"; js "Enter";
    js "ArrowLeft"; js "ArrowRight"; js "ArrowUp"; js "ArrowDown";
    js "Home"; js "End"; js ","; js "." ].

(** [/^[0-9]$/.test(k)] *)
Definition isOneDigit (k : jsstring) : bool :=
  match k with
  | [c] => isDigit c
  | _ => false
  end.

(** [handleKeyDown(e)]: whether [e.preventDefault()] is called. *)
Definition handleKeyDown (e : KeyboardEvent) : bool :=
  let isNumber := isOneDigit (key e) in
  let isAllowedKey := existsb (sameText (key e)) allowedKeys in
  let isCtrlCmd := ctrlKey e || metaKey e in
  negb isNumber && negb isAllowedKey && negb isCtrlCmd.

(** [handleInputChange(inputValue)]: the text displayed and the number
    handed to [onChange]. *)
Definition handleInputChange (inputValue : jsstring) : jsstring * float :=
  (inputValue, normalizeNumber (VStr inputValue)).

End CurrencyInput.

(** ** src/lib/utils.ts: exportToCSV *)

Module Csv.
Import JS.

(** A value of [Record<string, string | number>]. *)
Inductive cell :=
| CStr (s : jsstring)
| CNum (n : float).

(** An object, as its own keys in the order of [Object.keys] with their
    values; the keys of an object are distinct. *)
Definition row := list (jsstring * cell).

Definition cu_semicolon : codeUnit := 59%N.
Definition cu_newline : codeUnit := 10%N.

(** [xs.join(sep)] for a one-unit separator. *)
Fixpoint join (sep : codeUnit) (xs : list jsstring) : jsstring :=
  match xs with
  | [] => []
  | [x] => x
  | x :: rest => x ++ sep :: join sep rest
  end.

(** The own property of that name, if the row has one. *)
Fixpoint own (h : jsstring) (r : row) : option cell :=
  match r with
  | [] => None
  | (k, v) :: r' => if CurrencyInput.sameText k h then Some v else own h r'
  end.

(** The properties of [Object.prototype] that hold a function (ECMA-262
    20.1.3 and B.2.2); a row is a plain object and inherits them. *)
Definition objectPrototypeMethods : list jsstring :=
  [ js "constructor"; js "hasOwnProperty"; js "isPrototypeOf";
    js "propertyIsEnumerable"; js "toLocaleString"; js "toString";
    js "valueOf"; js "__defineGetter__"; js "__defineSetter__";
    js "__lookupGetter__"; js "__lookupSetter__" ].

(** What [r[h]] finds: reading a property goes up to the prototype when
    the row has none of that name. *)
Inductive property :=
| Own (c : cell)
| Method (name : jsstring)   (* the function [Object.prototype[name]] *)
| Proto                      (* [r.__proto__], which is [Object.prototype] *)
| Undefined.

(** [r[h]] *)
Definition get (h : jsstring) (r : row) : property :=
  match own h r with
  | Some c => Own c
  | None =>
      if existsb (CurrencyInput.sameText h) objectPrototypeMethods
      then Method h
      else if CurrencyInput.sameText h (js "__proto__") then Proto
      else Undefined
  end.

Section WithToString.

(** [String(n)] for a number, the Number::toString of ECMA-262. *)
Variable numberToString : float -> jsstring.

(** [String(f)] for the function [Object.prototype[name]]; the text is left
    to the implementation (ECMA-262 20.2.3.5). *)
Variable functionToString : jsstring -> jsstring.

(** [String(r[h] ?? "")] *)
Definition cellText (h : jsstring) (r : row) : jsstring :=
  match get h r with
  | Own (CStr s) => s
  | Own (CNum n) => numberToString n
  | Method name => functionToString name
  | Proto => js "[object Object]"
  | Undefined => []
  end.

(** [Object.keys(rows[0] || {})] *)
Definition headersOf (rows : list row) : list jsstring :=
  match rows with
  | r :: _ => List.map fst r
  | [] => []
  end.

(** The text of the file: the header line and one line per row. *)
Definition csvText (rows : list row) : jsstring :=
  let headers := headersOf rows in
  join cu_newline
    (join cu_semicolon headers
     :: List.map
          (fun r => join cu_semicolon (List.map (fun h => cellText h r) headers))
          rows).

(** [exportToCSV(rows, filename = "dados")]: the file offered for download,
    its name and its text, or nothing where there is no [window]. *)
Definition exportToCSV (window : bool) (rows : list row)
  (filename : option jsstring) : option (jsstring * jsstring) :=
  if negb window then None
  else
    let filename := match filename with Some f => f | None => js "dados" end in
    Some (filename ++ js ".csv", csvText rows).

End WithToString.

End Csv.

(** ** src/app/page.tsx *)

Module Page.
Import Data.

(** The two [useState] cells of [Page]. *)
Record State := {
  user : option User.t;
  isLoading : bool
}.

Definition initial : State := {| user := None; isLoading := true |}.

(** [loadUser()]: [setUser(u)] when there is a user, and
    [setIsLoading(false)] in any case. *)
Definition loadUser (link : Link) (w : World) (st : State) : State :=
  match getCurrentUser link w with
  | Some u => {| user := Some u; isLoading := false |}
  | None => {| user := user st; isLoading := false |}
  end.

Definition handleLogin (link : Link) (u : User.t) (w : World) (st : State)
  : World * State :=
  (after w (saveUser link u w), {| user := Some u; isLoading := isLoading st |}).

Definition handleLogout (link : Link) (w : World) (st : State)
  : World * State :=
  (logout link w, {| user := None; isLoading := isLoading st |}).

(** What [Page] returns. *)
Inductive View :=
| Spinner
| Dashboard (u : User.t)
| LoginForm.

Definition render (st : State) : View :=
  if isLoading st then Spinner
  else match user st with
       | Some u => Dashboard u
       | None => LoginForm
       end.

(** A page load: the initial state, then the effect that runs [loadUser]. *)
Definition mount (link : Link) (w : World) : State := loadUser link w initial.

End Page.


(** * Properties *)

(** ** The built-ins, checked on literals *)

Module JSTests.
Import JS.

Example parseFloat_tenth : parseFloat (js "0.1") = 0.1%float.
Proof. vm_compute. reflexivity. Qed.

Example parseFloat_sum : parseFloat (js "0.30000000000000004") = (0.1 + 0.2)%float.
Proof. vm_compute. reflexivity. Qed.

Example parseFloat_prefix : parseFloat (js "-12.5e-3x") = (-0.0125)%float.
Proof. vm_compute. reflexivity. Qed.

Example parseFloat_no_integer_part : parseFloat (js "  .5") = 0.5%float.
Proof. vm_compute. reflexivity. Qed.

Example parseFloat_no_fraction : parseFloat (js "5.") = 5%float.
Proof. vm_compute. reflexivity. Qed.

Example parseFloat_lone_dot : is_nan (parseFloat (js ".")) = true.
Proof. vm_compute. reflexivity. Qed.

Example parseFloat_tie_to_even :
  parseFloat (js "9007199254740993") = 9007199254740992%float.
Proof. vm_compute. reflexivity. Qed.

Example parseFloat_smallest : parseFloat (js "4.9e-324") = 0x1p-1074%float.
Proof. vm_compute. reflexivity. Qed.

Example parseFloat_underflow : parseFloat (js "2.4e-324") = 0%float.
Proof. vm_compute. reflexivity. Qed.

Example parseFloat_subnormal :
  parseFloat (js "2.2250738585072011e-308") = 2.2250738585072011e-308%float.
Proof. vm_compute. reflexivity. Qed.

Example parseFloat_largest :
  parseFloat (js "1.7976931348623157e308") = 0x1.fffffffffffffp+1023%float.
Proof. vm_compute. reflexivity. Qed.

Example parseFloat_overflow : parseFloat (js "1.7976931348623159e308") = infinity.
Proof. vm_compute. reflexivity. Qed.

Example split_one_dot : split cu_dot (js "1.000") = [js "1"; js "000"].
Proof. reflexivity. Qed.

Example split_empty : split cu_dot (js "") = [[]].
Proof. reflexivity. Qed.

Example trim_both : trim (js "  R$ 1,5 ") = js "R$ 1,5".
Proof. reflexivity. Qed.

End JSTests.

(** ** normalizeNumber *)

Module NormalizeSpec.
Import JS Utils.

Lemma includes_false_Forall (c : codeUnit) (s : jsstring) :
  includes c s = false <-> Forall (fun x => x <> c) s.
Proof.
  unfold includes. induction s as [|x s IH]; simpl.
  - split; [constructor | reflexivity].
  - rewrite orb_false_iff, IH, Forall_cons_iff, N.eqb_neq.
    split; intros [H1 H2]; split; auto.
Qed.

Lemma includes_app (c : codeUnit) (s t : jsstring) :
  includes c (s ++ t) = includes c s || includes c t.
Proof. unfold includes. apply existsb_app. Qed.

Lemma countOf_app (c : codeUnit) (s t : jsstring) :
  countOf c (s ++ t) = countOf c s + countOf c t.
Proof. unfold countOf. now rewrite List.filter_app, length_app. Qed.

Lemma countOf_absent (c : codeUnit) (s : jsstring) :
  includes c s = false -> countOf c s = 0.
Proof.
  unfold includes, countOf. induction s as [|x s IH]; simpl; [reflexivity|].
  rewrite orb_false_iff. intros [-> H]. auto.
Qed.

Lemma split_absent (c : codeUnit) (s : jsstring) :
  includes c s = false -> split c s = [s].
Proof.
  unfold includes. induction s as [|x s IH]; simpl; [reflexivity|].
  rewrite orb_false_iff. intros [Hx H].
  rewrite N.eqb_sym, Hx, (IH H). reflexivity.
Qed.

Lemma split_first (c : codeUnit) (a b : jsstring) :
  includes c a = false -> split c (a ++ c :: b) = a :: split c b.
Proof.
  unfold includes. induction a as [|x a IH]; simpl.
  - intros _. now rewrite N.eqb_refl.
  - rewrite orb_false_iff. intros [Hx H].
    rewrite N.eqb_sym, Hx, (IH H). reflexivity.
Qed.

Lemma replaceFirst_first (c : codeUnit) (r a b : jsstring) :
  includes c a = false -> replaceFirst c r (a ++ c :: b) = a ++ r ++ b.
Proof.
  unfold includes. induction a as [|x a IH]; simpl.
  - intros _. now rewrite N.eqb_refl.
  - rewrite orb_false_iff. intros [Hx H].
    rewrite N.eqb_sym, Hx, (IH H). reflexivity.
Qed.

Lemma removeAll_absent (c : codeUnit) (s : jsstring) :
  includes c s = false -> removeAll c s = s.
Proof.
  unfold includes, removeAll. induction s as [|x s IH]; simpl; [reflexivity|].
  rewrite orb_false_iff. intros [Hx H].
  rewrite N.eqb_sym, Hx. simpl. now rewrite (IH H).
Qed.

(** The single-dot branch, on a string cut at its only dot. *)
Lemma separators_single_dot (before after : jsstring) :
  includes cu_dot before = false ->
  includes cu_dot after = false ->
  includes cu_comma (before ++ cu_dot :: after) = false ->
  separators (before ++ cu_dot :: after)
  = if Nat.eqb (length after) 3 then before ++ after
    else before ++ cu_dot :: after.
Proof.
  intros Hb Ha Hc. unfold separators.
  assert (Hd : includes cu_dot (before ++ cu_dot :: after) = true).
  { rewrite includes_app. simpl. now rewrite orb_true_r. }
  assert (Hn : countOf cu_dot (before ++ cu_dot :: after) = 1).
  { rewrite countOf_app, (countOf_absent _ _ Hb).
    unfold countOf. simpl. fold (countOf cu_dot after).
    now rewrite (countOf_absent _ _ Ha). }
  rewrite Hc, Hd, Hn. simpl.
  rewrite (split_first _ _ _ Hb), (split_absent _ _ Ha).
  unfold isThousandsGroup. simpl.
  assert (Hca : includes cu_comma after = false).
  { rewrite includes_app in Hc. apply orb_false_iff in Hc as [_ Hc].
    simpl in Hc. exact Hc. }
  rewrite Hca. simpl.
  destruct (Nat.eqb (length after) 3) eqn:E.
  - apply Nat.eqb_eq in E. rewrite E. simpl.
    now rewrite (replaceFirst_first _ _ _ _ Hb).
  - now rewrite andb_false_r.
Qed.

(** What cleaning leaves: digits, dots, commas and minus signs. *)
Lemma keepNumeric_units (s : jsstring) :
  Forall (fun c => isNumericUnit c = true) (keepNumeric s).
Proof.
  unfold keepNumeric. apply List.Forall_forall. intros c Hc.
  apply List.filter_In in Hc. tauto.
Qed.

Lemma guard_finite (n : float) :
  isFinite (if isFinite n then n else 0%float) = true.
Proof. destruct (isFinite n) eqn:E; [exact E | reflexivity]. Qed.

Lemma normalizeNumber_string_finite (s : jsstring) :
  isFinite (normalizeNumber (VStr s)) = true.
Proof.
  destruct s as [|c s]; [reflexivity|].
  unfold normalizeNumber. apply guard_finite.
Qed.

Lemma isFinite_cases (n : float) :
  isFinite n = true -> is_nan n = false /\ is_infinity n = false.
Proof.
  unfold isFinite, is_finite. rewrite negb_true_iff, orb_false_iff. tauto.
Qed.

(** The wording of the specification for the part after a single dot:
    "exactly 3 digits". *)
Definition exactlyThreeDigits (p : jsstring) : bool :=
  Nat.eqb (length p) 3 && forallb isDigit p.

(** A numeral of 310 digits: beyond the range of binary64. *)
Definition longNumeral : jsstring := 49%N :: repeat cu_0 309.

Example longNumeral_overflows : parseFloat (cleaned longNumeral) = infinity.
Proof. vm_compute. reflexivity. Qed.

Example normalizeNumber_no_digits : normalizeNumber (VStr (js "R$ --")) = 0%float.
Proof. vm_compute. reflexivity. Qed.

(** C2, as stated, fails: in "1.2-3" the only separator is a single dot and
    the part after it, "2-3", is not three digits, yet the dot is stripped
    and the result is 12.  The test of the code is on the length of that
    part. *)
Lemma single_dot_stripped_without_three_digits :
  keepNumeric (removeCurrency (trim (js "1.2-3"))) = js "1" ++ cu_dot :: js "2-3"
  /\ includes cu_comma (js "1.2-3") = false
  /\ countOf cu_dot (js "1.2-3") = 1
  /\ normalizeNumber (VStr (js "1.2-3")) = 12%float
  /\ ~ (cleaned (js "1.2-3") = js "1" ++ js "2-3"
        <-> exactlyThreeDigits (js "2-3") = true).
Proof.
  repeat split; try (vm_compute; reflexivity).
  intros [H _]. specialize (H eq_refl). discriminate H.
Qed.

(** C2, amended: the separator policy of normalizeNumber.  With both
    separators every dot goes and the first comma becomes the decimal point;
    with commas only the first comma becomes the decimal point; with
    several dots and no comma all dots go; with a single dot and no comma
    the dot goes if and only if the part after it is exactly three units
    long (units that cleaning left: digits or minus signs); without
    separators the text is parsed as it is.  The six literals of the
    specification evaluate as it says. *)
Theorem normalizeNumber_separator_policy :
  (forall s : jsstring,
     let clean := keepNumeric (removeCurrency (trim s)) in
     (s <> [] ->
      normalizeNumber (VStr s)
      = if isFinite (parseFloat (separators clean))
        then parseFloat (separators clean) else 0%float)
     /\ (includes cu_comma clean = true -> includes cu_dot clean = true ->
         separators clean
         = replaceFirst cu_comma [cu_dot] (removeAll cu_dot clean))
     /\ (includes cu_comma clean = true -> includes cu_dot clean = false ->
         separators clean = replaceFirst cu_comma [cu_dot] clean)
     /\ (includes cu_comma clean = false -> 1 < countOf cu_dot clean ->
         separators clean = removeAll cu_dot clean)
     /\ (forall before after : jsstring,
           clean = before ++ cu_dot :: after ->
           includes cu_dot before = false ->
           includes cu_dot after = false ->
           includes cu_comma clean = false ->
           Forall (fun c => isDigit c = true \/ c = cu_minus) after
           /\ separators clean
              = (if Nat.eqb (length after) 3 then before ++ after else clean)
           /\ (separators clean = before ++ after <-> length after = 3))
     /\ (includes cu_comma clean = false -> includes cu_dot clean = false ->
         separators clean = clean))
  /\ normalizeNumber (VStr (js "50.889,20")) = 50889.20%float
  /\ normalizeNumber (VStr (js "1.234.567,89")) = 1234567.89%float
  /\ normalizeNumber (VStr (js "123,45")) = 123.45%float
  /\ normalizeNumber (VStr (js "1234")) = 1234%float
  /\ normalizeNumber (VStr (js "1.000")) = 1000%float
  /\ normalizeNumber (VStr (js "123.45")) = 123.45%float.
Proof.
  split; [| repeat split; vm_compute; reflexivity].
  intros s clean. repeat apply conj.
  - destruct s as [|c s]; [congruence | reflexivity].
  - intros Hc Hd. unfold separators. now rewrite Hc, Hd.
  - intros Hc Hd. unfold separators. now rewrite Hc, Hd.
  - intros Hc Hn. unfold separators. rewrite Hc. simpl.
    destruct (includes cu_dot clean) eqn:Hd.
    + simpl. apply Nat.ltb_lt in Hn. now rewrite Hn.
    + symmetry. now apply removeAll_absent.
  - intros before after E Hb Ha Hc.
    assert (Hs : separators clean
                 = if Nat.eqb (length after) 3 then before ++ after else clean).
    { rewrite E in Hc |- *. now apply separators_single_dot. }
    rewrite E in Hc.
    split; [| split].
    + pose proof (keepNumeric_units (removeCurrency (trim s))) as Hu.
      fold clean in Hu. rewrite E in Hu.
      apply Forall_app in Hu as [_ Hu]. apply Forall_cons_iff in Hu as [_ Hu].
      apply includes_false_Forall in Ha.
      rewrite includes_app in Hc. apply orb_false_iff in Hc as [_ Hc].
      simpl in Hc. apply includes_false_Forall in Hc.
      rewrite List.Forall_forall in *. intros c Hin.
      specialize (Hu c Hin). specialize (Ha c Hin). specialize (Hc c Hin).
      unfold isNumericUnit in Hu.
      destruct (isDigit c); [now left | right]. simpl in Hu.
      destruct (N.eqb_spec c cu_dot); [contradiction|].
      destruct (N.eqb_spec c cu_comma); [contradiction|].
      simpl in Hu. now apply N.eqb_eq.
    + exact Hs.
    + rewrite Hs. destruct (Nat.eqb_spec (length after) 3) as [E3|E3].
      * tauto.
      * split; intros H; [exfalso | contradiction].
        rewrite E in H. apply (f_equal (@length _)) in H.
        rewrite !length_app in H. simpl in H. lia.
  - intros Hc Hd. unfold separators. now rewrite Hc, Hd.
Qed.

Lemma normalizeNumber_separator_policy_witness :
  separators (keepNumeric (removeCurrency (trim (js "1.000")))) = js "1000"
  /\ separators (keepNumeric (removeCurrency (trim (js "123.45")))) = js "123.45".
Proof.
  split.
  - pose proof (proj1 normalizeNumber_separator_policy (js "1.000")) as H.
    destruct H as (_ & _ & _ & _ & H & _).
    destruct (H (js "1") (js "000")) as (_ & E & _);
      [reflexivity | reflexivity | reflexivity | reflexivity | exact E].
  - pose proof (proj1 normalizeNumber_separator_policy (js "123.45")) as H.
    destruct H as (_ & _ & _ & _ & H & _).
    destruct (H (js "123") (js "45")) as (_ & E & _);
      [reflexivity | reflexivity | reflexivity | reflexivity | exact E].
Defined.

(** C7: on every string normalizeNumber returns a finite number, neither
    NaN nor an infinity; a parse that is not finite is replaced by 0.  The
    function is total, so no string makes it throw. *)
Theorem normalizeNumber_total (s : jsstring) :
  isFinite (normalizeNumber (VStr s)) = true
  /\ is_nan (normalizeNumber (VStr s)) = false
  /\ is_infinity (normalizeNumber (VStr s)) = false
  /\ (isFinite (parseFloat (cleaned s)) = false ->
      normalizeNumber (VStr s) = 0%float).
Proof.
  pose proof (normalizeNumber_string_finite s) as H.
  destruct (isFinite_cases _ H) as [Hn Hi].
  repeat split; auto.
  intros Hp. destruct s as [|c s]; [reflexivity|].
  unfold normalizeNumber. now rewrite Hp.
Qed.

Lemma normalizeNumber_total_witness :
  isFinite (parseFloat (cleaned longNumeral)) = false
  /\ normalizeNumber (VStr longNumeral) = 0%float.
Proof.
  split.
  - vm_compute. reflexivity.
  - apply (normalizeNumber_total longNumeral). vm_compute. reflexivity.
Defined.

(** C10: a number is returned as it is, with no finiteness guard: NaN and
    the infinities come back unchanged.  Only strings are guaranteed a
    finite result. *)
Theorem normalizeNumber_number_unchanged :
  (forall n : float, normalizeNumber (VNum n) = n)
  /\ is_nan (normalizeNumber (VNum nan)) = true
  /\ normalizeNumber (VNum infinity) = infinity
  /\ normalizeNumber (VNum neg_infinity) = neg_infinity
  /\ isFinite (normalizeNumber (VNum nan)) = false
  /\ isFinite (normalizeNumber (VNum infinity)) = false
  /\ isFinite (normalizeNumber (VNum neg_infinity)) = false
  /\ (forall s : jsstring, isFinite (normalizeNumber (VStr s)) = true).
Proof.
  repeat split; try reflexivity. apply normalizeNumber_string_finite.
Qed.

End NormalizeSpec.

(** ** calculateMetrics and validateFormData *)

Module MetricsSpec.
Import JS Utils.

(** The same form with other net revenue figures. *)
Definition withNet (vrl' vrlj' : option float) (data : FormData) : FormData :=
  {| vbv := vbv data;
     valoresPagosCliente := valoresPagosCliente data;
     vrl := vrl';
     vrlj := vrlj';
     additionalValues := additionalValues data;
     periodo := periodo data;
     tenantId := tenantId data |}.

Definition vbvError : FieldError :=
  {| field := "vbv"; message := "VBV deve ser maior que zero." |}.

Definition rolWarning : string :=
  "ROL maior do que a Receita Bruta Real. Revise os números.".

Example orZero_negative_zero : orZero (-0)%float = 0%float.
Proof. reflexivity. Qed.

Example calculateMetrics_infinite_form :
  let data := withNet None None
                {| vbv := Some infinity; valoresPagosCliente := Some infinity;
                   vrl := None; vrlj := None; additionalValues := [];
                   periodo := ""; tenantId := "" |} in
  is_nan (rbr (calculateMetrics data)) = true
  /\ rentabilidadeLiquida (calculateMetrics data) = 0%float.
Proof. split; reflexivity. Qed.

(** C3: calculateMetrics is a total function of the form; with every
    numeric field coerced by [Number(x) || 0] (an absent field and NaN
    become 0) it returns rbr = vbv - valoresPagosCliente, rol = vrl + vrlj,
    rentabilidadeLiquida = rol / rbr * 100 when rbr > 0 and 0 otherwise,
    retencaoIfoodPercentual = 100 - rentabilidadeLiquida and
    valorRetidoIfood = rbr - rol; the form of the specification gives
    96000, 75000, 78.125, 21.875 and 21000. *)
Theorem calculateMetrics_formulas :
  (forall data : FormData,
     let c := calculateMetrics data in
     rbr c = (orZero (Number (vbv data))
              - orZero (Number (valoresPagosCliente data)))%float
     /\ rol c = (orZero (Number (vrl data)) + orZero (Number (vrlj data)))%float
     /\ rentabilidadeLiquida c
        = (if (0 <? rbr c)%float then (rol c / rbr c * 100)%float else 0%float)
     /\ retencaoIfoodPercentual c = (100 - rentabilidadeLiquida c)%float
     /\ valorRetidoIfood c = (rbr c - rol c)%float)
  /\ orZero (Number None) = 0%float
  /\ (forall n : float, is_nan n = true -> orZero (Number (Some n)) = 0%float)
  /\ (forall n : float, truthy n = true -> orZero (Number (Some n)) = n)
  /\ (forall periodo : string,
        calculateMetrics (generateTestData periodo)
        = {| rbr := 96000; rol := 75000; rentabilidadeLiquida := 78.125;
             retencaoIfoodPercentual := 21.875; valorRetidoIfood := 21000 |}).
Proof.
  repeat apply conj.
  - intros data. cbv zeta. repeat apply conj; reflexivity.
  - reflexivity.
  - intros n Hn. unfold orZero, truthy, Number. now rewrite Hn.
  - intros n Hn. unfold orZero, Number. now rewrite Hn.
  - intros p. vm_compute. reflexivity.
Qed.

Lemma calculateMetrics_formulas_witness :
  orZero (Number (Some nan)) = 0%float
  /\ orZero (Number (Some 4000%float)) = 4000%float.
Proof.
  destruct calculateMetrics_formulas as (_ & _ & Hnan & Hnum & _).
  split; [apply Hnan | apply Hnum]; reflexivity.
Defined.

Lemma pushIf_keeps {A} (c : bool) (x y : A) (xs : list A) :
  In y xs -> In y (pushIf c x xs).
Proof. unfold pushIf. destruct c; [|auto]. intros H. apply in_or_app. auto. Qed.

(** C4: isValid is true exactly when the error list is empty, so forms with
    the same errors are equally valid whatever their warnings; a vbv that
    coerces to 0 always gives the error on field vbv; rol > rbr gives exactly
    the one warning, and the errors do not depend on the two figures rol is
    made of. *)
Theorem validateFormData_validity (data : FormData) :
  let r := validateFormData data in
  let c := calculateMetrics data in
  (isValid r = true <-> errors r = [])
  /\ (forall data' : FormData,
        errors (validateFormData data') = errors r ->
        isValid (validateFormData data') = isValid r)
  /\ (orZero (Number (vbv data)) = 0%float -> In vbvError (errors r))
  /\ ((rbr c <? rol c)%float = true -> warnings r = [rolWarning])
  /\ ((rbr c <? rol c)%float = false -> warnings r = [])
  /\ (forall vrl' vrlj' : option float,
        errors (validateFormData (withNet vrl' vrlj' data)) = errors r).
Proof.
  cbv zeta. split; [|split; [|split; [|split; [|split]]]].
  - unfold validateFormData. simpl. rewrite Nat.eqb_eq.
    apply length_zero_iff_nil.
  - intros data' H. unfold validateFormData in *. simpl in *. now rewrite H.
  - intros H. unfold validateFormData. simpl. rewrite H.
    do 2 apply pushIf_keeps. simpl. now left.
  - intros H. unfold validateFormData, calculateMetrics in *. simpl in *.
    now rewrite H.
  - intros H. unfold validateFormData, calculateMetrics in *. simpl in *.
    now rewrite H.
  - intros x y. reflexivity.
Qed.

Definition zeroSales : FormData :=
  {| vbv := Some 0%float; valoresPagosCliente := None;
     vrl := Some 5%float; vrlj := None; additionalValues := [];
     periodo := "2024-01"; tenantId := "demo-tenant" |}.

Lemma validateFormData_validity_witness :
  In vbvError (errors (validateFormData zeroSales))
  /\ warnings (validateFormData zeroSales) = [rolWarning].
Proof.
  destruct (validateFormData_validity zeroSales) as (_ & _ & Hv & Hw & _).
  split; [apply Hv | apply Hw]; reflexivity.
Defined.

(** A form with the warning and no error is valid. *)
Example warning_without_error :
  let data := {| vbv := Some 100%float; valoresPagosCliente := Some 0%float;
                 vrl := Some 200%float; vrlj := None; additionalValues := [];
                 periodo := ""; tenantId := "" |} in
  validateFormData data
  = {| isValid := true; errors := []; warnings := [rolWarning] |}.
Proof. reflexivity. Qed.

End MetricsSpec.

(** ** The gateway *)

Module DataSpec.
Import Data.

(** *** Keys *)

Lemma analysesKey_inj (t1 t2 : string) :
  analysesKey t1 = analysesKey t2 -> t1 = t2.
Proof. unfold analysesKey. simpl. intros H. now simplify_eq. Qed.

Lemma analysesKey_not_userKey (t : string) : analysesKey t ≠ userKey.
Proof. unfold analysesKey, userKey. simpl. intros H. discriminate H. Qed.

(** *** The select *)

Lemma insertDesc_perm (a : AnalysisData.t) (rows : list AnalysisData.t) :
  insertDesc a rows ≡ₚ a :: rows.
Proof.
  induction rows as [|r rows IH]; simpl; [reflexivity|].
  destruct (String.ltb _ _); [|reflexivity].
  rewrite IH. apply Permutation_swap.
Qed.

Lemma orderDesc_perm (rows : list AnalysisData.t) : orderDesc rows ≡ₚ rows.
Proof.
  unfold orderDesc. induction rows as [|r rows IH]; simpl; [reflexivity|].
  now rewrite insertDesc_perm, IH.
Qed.

Lemma selectByTenant_elem (t : string) (rows : list AnalysisData.t)
  (a : AnalysisData.t) :
  a ∈ selectByTenant t rows <-> AnalysisData.tenantId a = t /\ a ∈ rows.
Proof.
  unfold selectByTenant. now rewrite orderDesc_perm, list_elem_of_filter.
Qed.

(** *** Worlds to run the gateway in *)

Definition browser : Env :=
  {| window := true;
     NEXT_PUBLIC_SUPABASE_URL := Some "https://project.supabase.co";
     NEXT_PUBLIC_SUPABASE_ANON_KEY := Some "anon-key" |}.

Definition emptySupabase : Supabase :=
  {| authUser := None; Usuario := []; historicodeanalise := [] |}.

Definition fresh (e : Env) : World :=
  {| env := e; supabase := emptySupabase; localStorage := ∅ |}.

Definition sampleForm : Utils.FormData := Utils.generateTestData "2024-05".

Definition sample (id tenant : string) : AnalysisData.t :=
  {| AnalysisData.id := id;
     AnalysisData.userId := "u1";
     AnalysisData.tenantId := tenant;
     AnalysisData.formData := Payload.ofFormData sampleForm;
     AnalysisData.calculatedData :=
       Payload.ofCalculatedData (Utils.calculateMetrics sampleForm);
     AnalysisData.timestamp := "2024-05-31T12:00:00.000Z" |}.

Example browser_has_supabase : isSupabaseAvailable browser = true.
Proof. reflexivity. Qed.

(** *** Records through JSON *)

Lemma jsonNumber_same (n : float) :
  Payload.jsonNumber n = Payload.Num n
  <-> is_finite n = true /\ (is_zero n = true -> n = 0%float).
Proof.
  unfold Payload.jsonNumber.
  destruct (is_finite n); [|split; [discriminate | intros [H _]; discriminate H]].
  destruct (is_zero n).
  - split.
    + intros H. split; [reflexivity|]. intros _. now injection H as <-.
    + intros [_ H]. now rewrite (H eq_refl).
  - split; [|reflexivity]. intros _. split; [reflexivity | discriminate].
Qed.

Example jsonNumber_values :
  Payload.jsonNumber nan = Payload.Null
  /\ Payload.jsonNumber infinity = Payload.Null
  /\ Payload.jsonNumber neg_infinity = Payload.Null
  /\ Payload.jsonNumber (-0)%float = Payload.Num 0%float
  /\ Payload.jsonNumber 0%float = Payload.Num 0%float
  /\ Payload.jsonNumber 96000.5%float = Payload.Num 96000.5%float
  /\ Payload.jsonNumber (-4000)%float = Payload.Num (-4000)%float.
Proof. repeat split; reflexivity. Qed.

Lemma jsonNumber_again (n : float) :
  Payload.jsonSlot (Payload.jsonNumber n) = Payload.jsonNumber n.
Proof.
  unfold Payload.jsonNumber.
  destruct (is_finite n) eqn:Hfinite; [|reflexivity].
  destruct (is_zero n) eqn:Hzero; simpl; unfold Payload.jsonNumber.
  - reflexivity.
  - now rewrite Hfinite, Hzero.
Qed.

Lemma jsonSlot_again (x : Payload.slot) :
  Payload.jsonSlot (Payload.jsonSlot x) = Payload.jsonSlot x.
Proof. destruct x; simpl; auto using jsonNumber_again. Qed.

Lemma jsonSlot_present (x : Payload.slot) :
  Payload.jsonSlot x = Payload.Absent <-> x = Payload.Absent.
Proof.
  destruct x as [| |n]; simpl; try tauto; try (split; discriminate).
  unfold Payload.jsonNumber.
  destruct (is_finite n); split; discriminate.
Qed.

Lemma jsonEntries_again (kvs : list (string * Payload.slot)) :
  Payload.jsonEntries (Payload.jsonEntries kvs) = Payload.jsonEntries kvs.
Proof.
  unfold Payload.jsonEntries.
  induction kvs as [|[k x] kvs IH]; [reflexivity|].
  simpl. destruct x as [| |n]; simpl; auto.
  - f_equal. apply IH.
  - destruct (Payload.jsonNumber n) eqn:E.
    + exfalso. now apply (jsonSlot_present (Payload.Num n)) in E.
    + simpl. f_equal. apply IH.
    + simpl. f_equal; [|apply IH]. f_equal.
      pose proof (jsonNumber_again n) as H. now rewrite E in H.
Qed.

(** Writing a record a second time changes nothing more. *)
Lemma viaJSON_again (a : AnalysisData.t) :
  AnalysisData.viaJSON (AnalysisData.viaJSON a) = AnalysisData.viaJSON a.
Proof.
  unfold AnalysisData.viaJSON, Payload.jsonFormData,
    Payload.jsonCalculatedData. simpl.
  now rewrite !jsonSlot_again, jsonEntries_again.
Qed.

(** A number field that JSON gives back as it is: missing, [null], or a
    finite number other than -0. *)
Definition survives (x : Payload.slot) : Prop :=
  match x with
  | Payload.Num n => is_finite n = true /\ (is_zero n = true -> n = 0%float)
  | _ => True
  end.

Lemma jsonSlot_same (x : Payload.slot) :
  Payload.jsonSlot x = x <-> survives x.
Proof.
  destruct x as [| |n]; simpl; [tauto | tauto | apply jsonNumber_same].
Qed.

Lemma jsonEntries_same (kvs : list (string * Payload.slot)) :
  Forall (λ kv, snd kv ≠ Payload.Absent /\ survives (snd kv)) kvs ->
  Payload.jsonEntries kvs = kvs.
Proof.
  unfold Payload.jsonEntries.
  induction 1 as [|[k x] kvs [Hx Hs] _ IH]; [reflexivity|].
  simpl in Hx, Hs. apply jsonSlot_same in Hs.
  destruct x as [| |n]; [contradiction | |]; simpl.
  - f_equal. exact IH.
  - f_equal; [|exact IH]. f_equal. exact Hs.
Qed.

(** A record whose numbers are all finite and other than -0 is given back
    by JSON as it is. *)
Lemma viaJSON_same (a : AnalysisData.t) :
  survives (Payload.vbv (AnalysisData.formData a)) ->
  survives (Payload.valoresPagosCliente (AnalysisData.formData a)) ->
  survives (Payload.vrl (AnalysisData.formData a)) ->
  survives (Payload.vrlj (AnalysisData.formData a)) ->
  Forall (λ kv, snd kv ≠ Payload.Absent /\ survives (snd kv))
    (Payload.additionalValues (AnalysisData.formData a)) ->
  survives (Payload.rbr (AnalysisData.calculatedData a)) ->
  survives (Payload.rol (AnalysisData.calculatedData a)) ->
  survives (Payload.rentabilidadeLiquida (AnalysisData.calculatedData a)) ->
  survives (Payload.retencaoIfoodPercentual (AnalysisData.calculatedData a)) ->
  survives (Payload.valorRetidoIfood (AnalysisData.calculatedData a)) ->
  AnalysisData.viaJSON a = a.
Proof.
  destruct a as [i u t [f1 f2 f3 f4 kvs per ten] [c1 c2 c3 c4 c5] ts]. simpl.
  intros H1 H2 H3 H4 Hk H5 H6 H7 H8 H9.
  apply jsonSlot_same in H1, H2, H3, H4, H5, H6, H7, H8, H9.
  apply jsonEntries_same in Hk.
  unfold AnalysisData.viaJSON, Payload.jsonFormData,
    Payload.jsonCalculatedData. simpl.
  now rewrite H1, H2, H3, H4, H5, H6, H7, H8, H9, Hk.
Qed.

(** A list of records that are as [JSON.stringify] writes them, written
    again with one more record after them: the records read back as they
    were, the new one as its JSON image.  This is
    [JSON.parse(JSON.stringify(arr))] after [arr.push(analysis)]. *)
Lemma stored_again (arr : list AnalysisData.t) (a : AnalysisData.t) :
  Forall (λ r, AnalysisData.viaJSON r = r) arr ->
  AnalysisData.viaJSON <$> (arr ++ [a]) = arr ++ [AnalysisData.viaJSON a].
Proof.
  intros H. rewrite fmap_app. f_equal.
  induction H as [|r arr Hr _ IH]; [reflexivity|].
  rewrite fmap_cons. now rewrite Hr, IH.
Qed.

(** *** saveAnalysis then loadAnalyses *)

(** A record with a number JSON has no text for: a gross value beyond the
    range of a number. *)
Definition unboundedForm : Utils.FormData :=
  {| Utils.vbv := Some infinity;
     Utils.valoresPagosCliente := Some 4000%float;
     Utils.vrl := Some 70000%float;
     Utils.vrlj := Some 5000%float;
     Utils.additionalValues := [];
     Utils.periodo := "2024-05";
     Utils.tenantId := "acme" |}.

Definition unbounded (id tenant : string) : AnalysisData.t :=
  {| AnalysisData.id := id;
     AnalysisData.userId := "u1";
     AnalysisData.tenantId := tenant;
     AnalysisData.formData := Payload.ofFormData unboundedForm;
     AnalysisData.calculatedData :=
       Payload.ofCalculatedData (Utils.calculateMetrics unboundedForm);
     AnalysisData.timestamp := "2024-05-31T12:00:00.000Z" |}.

(** C1, as stated, fails: a record that saveAnalysis wrote to Supabase is
    not in what loadAnalyses reads from localStorage when its own request
    fails, and a record that went to localStorage is not in what a later
    successful request reads from Supabase.  And with both calls on the
    local path, a record holding Infinity comes back with [null] in its
    place, so no record of the list is equal to it. *)
Lemma save_then_load_across_stores :
  saveAnalysis Up (sample "a1" "acme") (fresh browser)
  = Fulfilled (ViaSupabase,
               after (fresh browser)
                 (saveAnalysis Up (sample "a1" "acme") (fresh browser)))
  /\ loadAnalyses Down "acme"
       (after (fresh browser)
          (saveAnalysis Up (sample "a1" "acme") (fresh browser)))
     = (ViaLocalStorage, [])
  /\ saveAnalysis Down (sample "a1" "acme") (fresh browser)
     = Fulfilled (ViaLocalStorage,
                  after (fresh browser)
                    (saveAnalysis Down (sample "a1" "acme") (fresh browser)))
  /\ loadAnalyses Up "acme"
       (after (fresh browser)
          (saveAnalysis Down (sample "a1" "acme") (fresh browser)))
     = (ViaSupabase, [])
  /\ (sample "a1" "acme"
      ∉ snd (loadAnalyses Down "acme"
               (after (fresh browser)
                  (saveAnalysis Up (sample "a1" "acme") (fresh browser)))))
  /\ (sample "a1" "acme"
      ∉ snd (loadAnalyses Up "acme"
               (after (fresh browser)
                  (saveAnalysis Down (sample "a1" "acme") (fresh browser)))))
  /\ saveAnalysis Down (unbounded "a2" "acme") (fresh browser)
     = Fulfilled (ViaLocalStorage,
                  after (fresh browser)
                    (saveAnalysis Down (unbounded "a2" "acme")
                       (fresh browser)))
  /\ loadAnalyses Down "acme"
       (after (fresh browser)
          (saveAnalysis Down (unbounded "a2" "acme") (fresh browser)))
     = (ViaLocalStorage, [AnalysisData.viaJSON (unbounded "a2" "acme")])
  /\ Payload.vbv (AnalysisData.formData (unbounded "a2" "acme"))
     = Payload.Num infinity
  /\ Payload.vbv
       (AnalysisData.formData (AnalysisData.viaJSON (unbounded "a2" "acme")))
     = Payload.Null
  /\ (unbounded "a2" "acme"
      ∉ snd (loadAnalyses Down "acme"
               (after (fresh browser)
                  (saveAnalysis Down (unbounded "a2" "acme")
                     (fresh browser))))).
Proof.
  repeat split; try (vm_compute; reflexivity);
    try (intros H; vm_compute in H; inversion H; fail).
  intros H.
  assert (E : loadAnalyses Down "acme"
                (after (fresh browser)
                   (saveAnalysis Down (unbounded "a2" "acme") (fresh browser)))
              = (ViaLocalStorage,
                 [AnalysisData.viaJSON (unbounded "a2" "acme")]))
    by (vm_compute; reflexivity).
  rewrite E in H. cbn [snd] in H.
  apply list_elem_of_singleton in H.
  apply (f_equal (λ a, Payload.vbv (AnalysisData.formData a))) in H.
  vm_compute in H. discriminate H.
Qed.

(** Case analysis on the guards every gateway function starts with. *)
Ltac guards w link :=
  destruct (window (env w)) eqn:Hwindow; simpl;
  [ destruct (isSupabaseAvailable (env w)) eqn:Havailable; simpl;
    destruct link; simpl | ].

Lemma env_saveAnalysis (link : Link) (a : AnalysisData.t) (w : World) :
  env (after w (saveAnalysis link a w)) = env w.
Proof.
  unfold saveAnalysis. guards w link; try reflexivity;
    repeat (case_match; simpl; try reflexivity).
Qed.

(** C1, amended: when saveAnalysis resolves and the loadAnalyses that follows
    is served by the store that took the write, the list it returns
    contains, served by Supabase, the record saved, and served by
    localStorage, the record as JSON gives it back,
    [JSON.parse(JSON.stringify(a))]; so it contains a record equal to the
    one saved whenever JSON gives that one back unchanged, as it does a
    record whose numbers are all finite and other than -0
    ([viaJSON_same]). *)
Theorem saveAnalysis_loadAnalyses_same_store
  (link1 link2 : Link) (a : AnalysisData.t) (w w' : World)
  (p : Path) (rows : list AnalysisData.t) :
  saveAnalysis link1 a w = Fulfilled (p, w') ->
  loadAnalyses link2 (AnalysisData.tenantId a) w' = (p, rows) ->
  p ≠ NoWindow ->
  (p = ViaSupabase -> a ∈ rows)
  /\ (p = ViaLocalStorage -> AnalysisData.viaJSON a ∈ rows)
  /\ (AnalysisData.viaJSON a = a -> a ∈ rows).
Proof.
  intros Hsave Hload Hp.
  assert (Henv : env w' = env w).
  { pose proof (env_saveAnalysis link1 a w) as H. now rewrite Hsave in H. }
  assert (Hrows : match p with
                  | ViaLocalStorage => AnalysisData.viaJSON a ∈ rows
                  | _ => a ∈ rows
                  end).
  { unfold loadAnalyses in Hload. rewrite Henv in Hload.
    unfold saveAnalysis in Hsave.
    destruct (window (env w)); simpl in *; [|congruence].
    destruct (isSupabaseAvailable (env w)), link1, link2; simpl in *;
      repeat (case_match; simpl in *; simplify_eq);
      try congruence;
      try (unfold setLocalStorage; simpl; rewrite lookup_insert_eq; simpl;
           apply elem_of_app; right; apply list_elem_of_singleton;
           reflexivity).
    all: apply selectByTenant_elem; split; [reflexivity|].
    all: unfold insertRow in *; case_decide; simplify_eq.
    all: apply elem_of_app; right; apply list_elem_of_singleton; reflexivity. }
  destruct p; [congruence | |].
  - repeat split; [auto | discriminate | auto].
  - repeat split; [discriminate | auto |]. intros E. now rewrite <- E.
Qed.

Lemma saveAnalysis_loadAnalyses_same_store_witness :
  (sample "a1" "acme"
   ∈ snd (loadAnalyses Up "acme"
            (after (fresh browser)
               (saveAnalysis Up (sample "a1" "acme") (fresh browser)))))
  /\ (sample "a1" "acme"
      ∈ snd (loadAnalyses Down "acme"
               (after (fresh browser)
                  (saveAnalysis Down (sample "a1" "acme") (fresh browser)))))
  /\ (AnalysisData.viaJSON (unbounded "a2" "acme")
      ∈ snd (loadAnalyses Down "acme"
               (after (fresh browser)
                  (saveAnalysis Down (unbounded "a2" "acme")
                     (fresh browser))))).
Proof.
  split; [|split].
  - eapply (saveAnalysis_loadAnalyses_same_store Up Up (sample "a1" "acme")
              (fresh browser) _ ViaSupabase);
      [reflexivity | reflexivity | discriminate | reflexivity].
  - eapply (saveAnalysis_loadAnalyses_same_store Down Down
              (sample "a1" "acme") (fresh browser) _ ViaLocalStorage);
      [reflexivity | reflexivity | discriminate | reflexivity].
  - eapply (saveAnalysis_loadAnalyses_same_store Down Down
              (unbounded "a2" "acme") (fresh browser) _ ViaLocalStorage);
      [reflexivity | reflexivity | discriminate | reflexivity].
Defined.

(** *** Write-through *)

Definition sampleUser : User.t :=
  {| User.id := "u1"; User.email := "ana@acme.example"; User.name := "Ana";
     User.tenantId := "acme"; User.role := "admin";
     User.createdAt := "2024-05-01T09:00:00.000Z" |}.

(** C5, as stated, fails for saveAnalysis: after a successful insert
    localStorage holds nothing for the tenant, while saveUser does cache the
    user after a successful upsert. *)
Lemma saveAnalysis_success_not_mirrored :
  saveAnalysis Up (sample "a1" "acme") (fresh browser)
  = Fulfilled
      (ViaSupabase,
       {| env := browser;
          supabase := setHistorico [sample "a1" "acme"] emptySupabase;
          localStorage := ∅ |})
  /\ localStorage
       (after (fresh browser)
          (saveAnalysis Up (sample "a1" "acme") (fresh browser)))
     !! analysesKey "acme" = None
  /\ localStorage
       (after (fresh browser) (saveUser Up sampleUser (fresh browser)))
     !! userKey = Some (UserJson sampleUser).
Proof. repeat split; vm_compute; reflexivity. Qed.

(** C5, amended: saveUser caches the user in localStorage when the upsert
    succeeds; saveAnalysis leaves localStorage as it was when the insert
    succeeds; on the fallback path each of the two makes its one local write
    and leaves Supabase as it was. *)
Theorem write_through_on_success
  (link : Link) (w w' : World) :
  (forall user : User.t,
     saveUser link user w = Fulfilled (ViaSupabase, w') ->
     Usuario (supabase w') = upsertUser (Usuario (supabase w)) user
     /\ localStorage w' = <[userKey := UserJson user]> (localStorage w))
  /\ (forall user : User.t,
        saveUser link user w = Fulfilled (ViaLocalStorage, w') ->
        supabase w' = supabase w
        /\ localStorage w' = <[userKey := UserJson user]> (localStorage w))
  /\ (forall a : AnalysisData.t,
        saveAnalysis link a w = Fulfilled (ViaSupabase, w') ->
        historicodeanalise (supabase w')
        = historicodeanalise (supabase w) ++ [a]
        /\ localStorage w' = localStorage w)
  /\ (forall a : AnalysisData.t,
        saveAnalysis link a w = Fulfilled (ViaLocalStorage, w') ->
        supabase w' = supabase w
        /\ exists arr : list AnalysisData.t,
             parseArrayOrEmpty
               (localStorage w !! analysesKey (AnalysisData.tenantId a))
             = Some arr
             /\ localStorage w'
                = <[analysesKey (AnalysisData.tenantId a)
                    := Analyses (arr ++ [AnalysisData.viaJSON a])]>
                    (localStorage w)).
Proof.
  repeat apply conj.
  - intros user. unfold saveUser. guards w link; intros H; now simplify_eq.
  - intros user. unfold saveUser. guards w link; intros H; now simplify_eq.
  - intros a. unfold saveAnalysis, insertRow.
    guards w link; intros H; simplify_eq;
      repeat (case_match; simpl in *; simplify_eq); auto.
  - intros a. unfold saveAnalysis, insertRow.
    guards w link; intros H; simplify_eq;
      repeat (case_match; simpl in *; simplify_eq); eauto.
Qed.

Lemma write_through_on_success_witness :
  localStorage
    (after (fresh browser) (saveUser Up sampleUser (fresh browser)))
  = <[userKey := UserJson sampleUser]> ∅
  /\ localStorage
       (after (fresh browser)
          (saveAnalysis Up (sample "a1" "acme") (fresh browser)))
     = ∅.
Proof.
  split.
  - eapply (proj1 (write_through_on_success Up (fresh browser) _)).
    reflexivity.
  - eapply (proj1 (proj2 (proj2 (write_through_on_success Up (fresh browser) _)))).
    reflexivity.
Defined.

(** *** Tenant isolation *)

(** Every list stored under the key of a tenant holds records of that
    tenant only. *)
Definition partitioned (ls : gmap string Item) : Prop :=
  forall (t : string) (arr : list AnalysisData.t),
    ls !! analysesKey t = Some (Analyses arr) ->
    Forall (λ a, AnalysisData.tenantId a = t) arr.

Lemma partitioned_empty : partitioned ∅.
Proof. intros t arr H. rewrite lookup_empty in H. discriminate H. Qed.

Lemma partitioned_parse (ls : gmap string Item) (t : string)
  (arr : list AnalysisData.t) :
  partitioned ls ->
  parseArrayOrEmpty (ls !! analysesKey t) = Some arr ->
  Forall (λ a, AnalysisData.tenantId a = t) arr.
Proof.
  intros Hp H. destruct (ls !! analysesKey t) as [[]|] eqn:E;
    simpl in H; simplify_eq; auto.
Qed.

Lemma partitioned_insert (ls : gmap string Item) (t : string)
  (arr : list AnalysisData.t) :
  partitioned ls ->
  Forall (λ a, AnalysisData.tenantId a = t) arr ->
  partitioned (<[analysesKey t := Analyses arr]> ls).
Proof.
  intros Hp Harr t' arr' H.
  destruct (decide (analysesKey t = analysesKey t')) as [E|E].
  - rewrite E, lookup_insert_eq in H. apply analysesKey_inj in E.
    now simplify_eq.
  - rewrite lookup_insert_ne in H by exact E. eauto.
Qed.

Lemma partitioned_user (ls : gmap string Item) (u : User.t) :
  partitioned ls -> partitioned (<[userKey := UserJson u]> ls).
Proof.
  intros Hp t arr H.
  rewrite lookup_insert_ne in H; [eauto|].
  intros E. now apply (analysesKey_not_userKey t).
Qed.

Lemma partitioned_logout (ls : gmap string Item) :
  partitioned ls -> partitioned (delete userKey ls).
Proof.
  intros Hp t arr H.
  rewrite lookup_delete_ne in H; [eauto|].
  intros E. now apply (analysesKey_not_userKey t).
Qed.

Lemma Forall_filtered {A} (P Q : A → Prop) `{∀ x, Decision (P x)}
  (l : list A) :
  Forall Q l -> Forall Q (filter P l).
Proof.
  rewrite !Forall_forall. intros HQ x Hx.
  apply list_elem_of_filter in Hx. now apply HQ.
Qed.

Lemma partitioned_call (c : Call) (w : World) :
  partitioned (localStorage w) -> partitioned (localStorage (call w c)).
Proof.
  intros Hp. destruct c as [link u|link|link a|link i t|link t]; simpl.
  - unfold saveUser. guards w link; auto using partitioned_user.
  - unfold logout. guards w link; auto using partitioned_logout.
  - unfold saveAnalysis. guards w link; auto;
      repeat (case_match; simpl; auto);
      (apply partitioned_insert; [exact Hp|]);
      (apply Forall_app; split;
       [eapply partitioned_parse; eauto | repeat constructor]).
  - unfold deleteAnalysis. guards w link; auto;
      repeat (case_match; simpl; auto);
      (apply partitioned_insert; [exact Hp|]);
      apply Forall_filtered; eapply partitioned_parse; eauto.
  - unfold syncLocalStorageToSupabase.
    destruct (isSupabaseAvailable (env w)); simpl; auto.
    repeat (case_match; simpl; auto).
Qed.

Lemma partitioned_calls (cs : list Call) (w : World) :
  partitioned (localStorage w) -> partitioned (localStorage (calls cs w)).
Proof.
  unfold calls. revert w.
  induction cs as [|c cs IH]; intros w Hp; simpl; [exact Hp|].
  apply IH. now apply partitioned_call.
Qed.

(** *** Stored arrays are as the gateway writes them *)

(** Every stored array holds records that JSON gives back unchanged. *)
Definition asWritten (ls : gmap string Item) : Prop :=
  forall (k : string) (arr : list AnalysisData.t),
    ls !! k = Some (Analyses arr) ->
    Forall (λ r, AnalysisData.viaJSON r = r) arr.

Lemma asWritten_empty : asWritten ∅.
Proof. intros k arr H. rewrite lookup_empty in H. discriminate H. Qed.

Lemma asWritten_parse (ls : gmap string Item) (k : string)
  (arr : list AnalysisData.t) :
  asWritten ls ->
  parseArrayOrEmpty (ls !! k) = Some arr ->
  Forall (λ r, AnalysisData.viaJSON r = r) arr.
Proof.
  intros Hp H. destruct (ls !! k) as [[]|] eqn:E;
    simpl in H; simplify_eq; eauto.
Qed.

Lemma asWritten_insert (ls : gmap string Item) (k : string) (x : Item) :
  asWritten ls ->
  (forall arr, x = Analyses arr ->
               Forall (λ r, AnalysisData.viaJSON r = r) arr) ->
  asWritten (<[k := x]> ls).
Proof.
  intros Hp Hx k' arr' H.
  destruct (decide (k = k')) as [E|E].
  - rewrite E, lookup_insert_eq in H. apply Hx. congruence.
  - rewrite lookup_insert_ne in H by exact E. eauto.
Qed.

Lemma asWritten_delete (ls : gmap string Item) (k : string) :
  asWritten ls -> asWritten (delete k ls).
Proof.
  intros Hp k' arr' H. apply lookup_delete_Some in H as [_ H]. eauto.
Qed.

(** The gateway keeps the stored arrays that way: it writes a stored array
    back with the new record as JSON gives it, or with records left out. *)
Lemma asWritten_call (c : Call) (w : World) :
  asWritten (localStorage w) -> asWritten (localStorage (call w c)).
Proof.
  intros Hp. destruct c as [link u|link|link a|link i t|link t]; simpl.
  - unfold saveUser. guards w link; auto;
      (apply asWritten_insert; [exact Hp | discriminate]).
  - unfold logout. guards w link; auto using asWritten_delete.
  - unfold saveAnalysis. guards w link; auto;
      repeat (case_match; simpl; auto);
      (apply asWritten_insert; [exact Hp|]);
      intros arr' E; injection E as <-;
      (apply Forall_app; split;
       [ eapply asWritten_parse; eauto
       | repeat constructor; apply viaJSON_again ]).
  - unfold deleteAnalysis. guards w link; auto;
      repeat (case_match; simpl; auto);
      (apply asWritten_insert; [exact Hp|]);
      intros arr' E; injection E as <-;
      apply Forall_filtered; eapply asWritten_parse; eauto.
  - unfold syncLocalStorageToSupabase.
    destruct (isSupabaseAvailable (env w)); simpl; auto.
    repeat (case_match; simpl; auto).
Qed.

Lemma asWritten_calls (cs : list Call) (w : World) :
  asWritten (localStorage w) -> asWritten (localStorage (calls cs w)).
Proof.
  unfold calls. revert w.
  induction cs as [|c cs IH]; intros w Hp; simpl; [exact Hp|].
  apply IH. now apply asWritten_call.
Qed.

Lemma loadAnalyses_partitioned (link : Link) (t : string) (w : World) :
  partitioned (localStorage w) ->
  Forall (λ a, AnalysisData.tenantId a = t) (snd (loadAnalyses link t w)).
Proof.
  intros Hp. unfold loadAnalyses. guards w link; try constructor.
  - apply Forall_forall. intros a Ha. now apply selectByTenant_elem in Ha.
  - destruct (localStorage w !! analysesKey t) as [[]|] eqn:E;
      simpl; eauto.
  - destruct (localStorage w !! analysesKey t) as [[]|] eqn:E;
      simpl; eauto.
  - destruct (localStorage w !! analysesKey t) as [[]|] eqn:E;
      simpl; eauto.
Qed.

(** Stored lists that break the partition are read back as they are: the
    isolation of the fallback rests on what the gateway itself wrote. *)
Example foreign_records_are_read_back :
  let w := setLocalStorage
             (<[analysesKey "acme" := Analyses [sample "a9" "globex"]]> ∅)
             (fresh browser) in
  loadAnalyses Down "acme" w = (ViaLocalStorage, [sample "a9" "globex"]).
Proof. vm_compute. reflexivity. Qed.

(** C6: the local lists are stored under [ifood-analyses-] followed by the
    tenant id, a key that determines the tenant and is never the key of the
    cached user; starting from a localStorage whose lists hold only records
    of their tenant (an empty one for instance), after any sequence of
    gateway calls, whatever the fate of each request, loadAnalyses for a
    tenant returns only records of that tenant, from Supabase or from
    localStorage. *)
Theorem tenant_isolation :
  (forall t : string, analysesKey t = "ifood-analyses-" +:+ t)
  /\ (forall t1 t2 : string, analysesKey t1 = analysesKey t2 -> t1 = t2)
  /\ (forall t : string, analysesKey t ≠ userKey)
  /\ (forall (cs : list Call) (w : World) (link : Link) (t1 : string),
        partitioned (localStorage w) ->
        Forall (λ a, AnalysisData.tenantId a = t1)
          (snd (loadAnalyses link t1 (calls cs w))))
  /\ (forall (cs : list Call) (e : Env) (s : Supabase) (link : Link)
             (t1 : string),
        Forall (λ a, AnalysisData.tenantId a = t1)
          (snd (loadAnalyses link t1
                  (calls cs
                     {| env := e; supabase := s; localStorage := ∅ |})))).
Proof.
  repeat apply conj.
  - reflexivity.
  - apply analysesKey_inj.
  - apply analysesKey_not_userKey.
  - intros cs w link t1 Hp.
    now apply loadAnalyses_partitioned, partitioned_calls.
  - intros cs e s link t1.
    apply loadAnalyses_partitioned, partitioned_calls, partitioned_empty.
Qed.

(** Two tenants saving, syncing and deleting in one browser. *)
Definition twoTenants : list Call :=
  [ CallSaveUser Up sampleUser;
    CallSaveAnalysis Down (sample "a1" "acme");
    CallSaveAnalysis Down (sample "g1" "globex");
    CallSaveAnalysis Up (sample "g2" "globex");
    CallSync Up "acme";
    CallDeleteAnalysis Down "g1" "acme";
    CallSaveAnalysis Down (sample "a2" "acme");
    CallLogout Up ].

Lemma tenant_isolation_witness :
  Forall (λ a, AnalysisData.tenantId a = "acme")
    (snd (loadAnalyses Down "acme" (calls twoTenants (fresh browser))))
  /\ snd (loadAnalyses Down "acme" (calls twoTenants (fresh browser)))
     = [sample "a1" "acme"; sample "a2" "acme"]
  /\ snd (loadAnalyses Up "globex" (calls twoTenants (fresh browser)))
     = [sample "g2" "globex"].
Proof.
  split; [|split; vm_compute; reflexivity].
  apply (proj1 (proj2 (proj2 (proj2 tenant_isolation)))).
  apply partitioned_empty.
Defined.

(** *** deleteAnalysis twice *)

Lemma filter_twice {A} (P : A → Prop) `{∀ x, Decision (P x)} (l : list A) :
  filter P (filter P l) = filter P l.
Proof. apply list_filter_filter_l. auto. Qed.

Lemma deleteRows_twice (i t : string) (rows : list AnalysisData.t) :
  deleteRows i t (deleteRows i t rows) = deleteRows i t rows.
Proof. apply filter_twice. Qed.

(** A record held by both stores: saved while Supabase was out of reach,
    then synchronised. *)
Definition inBothStores : World :=
  calls [CallSaveAnalysis Down (sample "a1" "acme"); CallSync Up "acme"]
    (fresh browser).

Definition deleteOnce (link : Link) : World :=
  after inBothStores (deleteAnalysis link "a1" "acme" inBothStores).

Definition deleteTwice (link1 link2 : Link) : World :=
  after (deleteOnce link1)
    (deleteAnalysis link2 "a1" "acme" (deleteOnce link1)).

Definition stores (w : World) : list AnalysisData.t * option Item :=
  (historicodeanalise (supabase w), localStorage w !! analysesKey "acme").

(** C8, as stated, fails: with the record in both stores, a first call whose
    request fails empties the local list and a second call whose request
    succeeds deletes the row, a state that no single call leaves. *)
Lemma delete_twice_across_stores :
  stores inBothStores
  = ([sample "a1" "acme"], Some (Analyses [sample "a1" "acme"]))
  /\ stores (deleteOnce Down) = ([sample "a1" "acme"], Some (Analyses []))
  /\ stores (deleteOnce Up) = ([], Some (Analyses [sample "a1" "acme"]))
  /\ stores (deleteTwice Down Up) = ([], Some (Analyses []))
  /\ deleteTwice Down Up ≠ deleteOnce Down
  /\ deleteTwice Down Up ≠ deleteOnce Up.
Proof.
  repeat split; try (vm_compute; reflexivity).
  - intros H. apply (f_equal stores) in H. vm_compute in H. discriminate H.
  - intros H. apply (f_equal stores) in H. vm_compute in H. discriminate H.
Qed.

Lemma deleteAnalysis_same_store
  (link1 link2 : Link) (i t : string) (w w1 w2 : World) (p : Path) :
  deleteAnalysis link1 i t w = Fulfilled (p, w1) ->
  deleteAnalysis link2 i t w1 = Fulfilled (p, w2) ->
  w2 = w1.
Proof.
  unfold deleteAnalysis. intros H1 H2.
  destruct (window (env w)) eqn:Hwindow; simpl in H1;
    [| injection H1 as <- <-; rewrite Hwindow in H2; simpl in H2;
       now injection H2 as <-].
  assert (Hremote : forall rows,
            env (setSupabase (setHistorico rows (supabase w)) w) = env w)
    by reflexivity.
  assert (Hlocal : forall ls, env (setLocalStorage ls w) = env w)
    by reflexivity.
  destruct (isSupabaseAvailable (env w)) eqn:Havailable, link1; simpl in H1.
  2-4: destruct (parseArrayOrEmpty _) as [arr|] eqn:Hparse in H1;
    [|discriminate H1].
  all: injection H1 as <- <-.
  all: rewrite ?Hremote, ?Hlocal, Hwindow, Havailable in H2; simpl in H2.
  all: destruct link2; try discriminate H2.
  all: try (destruct (parseArrayOrEmpty (localStorage w !! analysesKey t));
            discriminate H2).
  all: rewrite ?lookup_insert_eq in H2; simpl in H2; injection H2 as <-.
  all: unfold setSupabase, setLocalStorage, setHistorico; simpl.
  all: now rewrite ?deleteRows_twice, ?insert_insert_eq, ?filter_twice.
Qed.

(** The store a call is served by, when it resolves. *)
Definition served (e : Env) (link : Link) : Path :=
  if negb (window e) then NoWindow
  else match isSupabaseAvailable e, link with
       | true, Up => ViaSupabase
       | _, _ => ViaLocalStorage
       end.

Lemma deleteAnalysis_served
  (link : Link) (i t : string) (w w1 : World) (p : Path) :
  deleteAnalysis link i t w = Fulfilled (p, w1) ->
  p = served (env w) link /\ env w1 = env w.
Proof.
  unfold deleteAnalysis, served. intros H.
  destruct (window (env w)); simpl in *; [|now injection H as <- <-].
  destruct (isSupabaseAvailable (env w)), link; simpl in *.
  2-4: destruct (parseArrayOrEmpty _); [|discriminate H].
  all: now injection H as <- <-.
Qed.

(** C8, amended: two calls served by the same store leave what one call
    leaves; in particular a second call whose request fares as the first
    one's did changes nothing, whether the call resolves or is rejected. *)
Theorem deleteAnalysis_idempotent_same_store :
  (forall (link1 link2 : Link) (i t : string) (w w1 w2 : World) (p : Path),
     deleteAnalysis link1 i t w = Fulfilled (p, w1) ->
     deleteAnalysis link2 i t w1 = Fulfilled (p, w2) ->
     w2 = w1)
  /\ (forall (link : Link) (i t : string) (w : World),
        after (after w (deleteAnalysis link i t w))
          (deleteAnalysis link i t (after w (deleteAnalysis link i t w)))
        = after w (deleteAnalysis link i t w)).
Proof.
  split; [exact deleteAnalysis_same_store|].
  intros link i t w.
  destruct (deleteAnalysis link i t w) as [[p w1]|] eqn:H1; simpl.
  - destruct (deleteAnalysis link i t w1) as [[p' w2]|] eqn:H2; simpl;
      [|reflexivity].
    destruct (deleteAnalysis_served _ _ _ _ _ _ H1) as [-> Henv].
    destruct (deleteAnalysis_served _ _ _ _ _ _ H2) as [-> _].
    rewrite Henv in H2. eapply deleteAnalysis_same_store; eauto.
  - now rewrite H1.
Qed.

Lemma deleteAnalysis_idempotent_same_store_witness :
  deleteTwice Down Down = deleteOnce Down
  /\ deleteTwice Up Up = deleteOnce Up.
Proof.
  split.
  - eapply (proj1 deleteAnalysis_idempotent_same_store Down Down "a1" "acme"
              inBothStores _ _ ViaLocalStorage); reflexivity.
  - eapply (proj1 deleteAnalysis_idempotent_same_store Up Up "a1" "acme"
              inBothStores _ _ ViaSupabase); reflexivity.
Defined.

(** *** syncLocalStorageToSupabase *)

Definition ids (rows : list AnalysisData.t) : list string :=
  AnalysisData.id <$> rows.

(** The row an upsert of [a] leaves in the place of [r]. *)
Definition replaceBy (a r : AnalysisData.t) : AnalysisData.t :=
  if decide (AnalysisData.id r = AnalysisData.id a) then a else r.

(** The last record of a batch with the key of [r], or [r] itself. *)
Definition latest (batch : list AnalysisData.t) (r : AnalysisData.t)
  : AnalysisData.t :=
  fold_left
    (λ acc a, if decide (AnalysisData.id a = AnalysisData.id r)
              then a else acc)
    batch r.

Lemma key_taken (rows : list AnalysisData.t) (a : AnalysisData.t) :
  Exists (λ r, AnalysisData.id r = AnalysisData.id a) rows
  <-> AnalysisData.id a ∈ ids rows.
Proof.
  unfold ids. rewrite Exists_exists, list_elem_of_fmap.
  split; intros (r & H1 & H2); exists r; auto.
Qed.

Lemma upsertRow_taken (rows : list AnalysisData.t) (a : AnalysisData.t) :
  AnalysisData.id a ∈ ids rows -> upsertRow rows a = replaceBy a <$> rows.
Proof.
  intros H. unfold upsertRow. case_decide as E; [reflexivity|].
  now apply key_taken in H.
Qed.

Lemma upsertRow_free (rows : list AnalysisData.t) (a : AnalysisData.t) :
  AnalysisData.id a ∉ ids rows -> upsertRow rows a = rows ++ [a].
Proof.
  intros H. unfold upsertRow. case_decide as E; [|reflexivity].
  now apply key_taken in E.
Qed.

Lemma replaceBy_id (a r : AnalysisData.t) :
  AnalysisData.id (replaceBy a r) = AnalysisData.id r.
Proof. unfold replaceBy. case_decide; congruence. Qed.

Lemma ids_replaceBy (a : AnalysisData.t) (rows : list AnalysisData.t) :
  ids (replaceBy a <$> rows) = ids rows.
Proof.
  unfold ids. rewrite <- list_fmap_compose. apply list_fmap_ext.
  intros ? r _. apply replaceBy_id.
Qed.

Lemma ids_upsertRow (rows : list AnalysisData.t) (a : AnalysisData.t) :
  ids (upsertRow rows a)
  = if decide (AnalysisData.id a ∈ ids rows) then ids rows
    else ids rows ++ [AnalysisData.id a].
Proof.
  case_decide as E.
  - rewrite (upsertRow_taken _ _ E). apply ids_replaceBy.
  - rewrite (upsertRow_free _ _ E). unfold ids. now rewrite fmap_app.
Qed.

Lemma upsertRow_NoDup (rows : list AnalysisData.t) (a : AnalysisData.t) :
  NoDup (ids rows) -> NoDup (ids (upsertRow rows a)).
Proof.
  intros H. rewrite ids_upsertRow. case_decide as E; [exact H|].
  apply NoDup_app. repeat split; [exact H | | apply NoDup_singleton].
  intros x Hx Hx'. apply list_elem_of_singleton in Hx'. now subst.
Qed.

Lemma upsertRows_snoc (batch rows : list AnalysisData.t)
  (a : AnalysisData.t) :
  upsertRows (batch ++ [a]) rows = upsertRow (upsertRows batch rows) a.
Proof. unfold upsertRows. now rewrite fold_left_app. Qed.

Lemma upsertRows_NoDup (batch rows : list AnalysisData.t) :
  NoDup (ids rows) -> NoDup (ids (upsertRows batch rows)).
Proof.
  intros H. induction batch as [|a batch IH] using rev_ind; [exact H|].
  rewrite upsertRows_snoc. now apply upsertRow_NoDup.
Qed.

Lemma latest_snoc (batch : list AnalysisData.t) (a r : AnalysisData.t) :
  latest (batch ++ [a]) r
  = if decide (AnalysisData.id a = AnalysisData.id r) then a
    else latest batch r.
Proof. unfold latest. now rewrite fold_left_app. Qed.

Lemma latest_id (batch : list AnalysisData.t) (r : AnalysisData.t) :
  AnalysisData.id (latest batch r) = AnalysisData.id r.
Proof.
  induction batch as [|a batch IH] using rev_ind; [reflexivity|].
  rewrite latest_snoc. now case_decide.
Qed.

Lemma ids_upsertRows_keep (batch rows : list AnalysisData.t) (x : string) :
  x ∈ ids rows -> x ∈ ids (upsertRows batch rows).
Proof.
  intros H. induction batch as [|a batch IH] using rev_ind; [exact H|].
  rewrite upsertRows_snoc, ids_upsertRow.
  case_decide; [exact IH | apply elem_of_app; now left].
Qed.

(** Every record of the batch has its key in the table afterwards. *)
Lemma upsertRows_covers (batch rows : list AnalysisData.t)
  (a : AnalysisData.t) :
  a ∈ batch -> AnalysisData.id a ∈ ids (upsertRows batch rows).
Proof.
  induction batch as [|b batch IH] using rev_ind;
    [intros H; now apply elem_of_nil in H|].
  rewrite upsertRows_snoc, ids_upsertRow, elem_of_app, list_elem_of_singleton.
  intros [H | ->]; case_decide as E; rewrite ?elem_of_app; auto.
  right. now apply list_elem_of_singleton.
Qed.

(** When every key of the batch is in the table, the upsert only replaces. *)
Lemma upsertRows_taken (batch rows : list AnalysisData.t) :
  (forall a, a ∈ batch -> AnalysisData.id a ∈ ids rows) ->
  upsertRows batch rows = latest batch <$> rows.
Proof.
  induction batch as [|a batch IH] using rev_ind; intros H.
  - unfold upsertRows, latest. simpl. now rewrite list_fmap_id.
  - rewrite upsertRows_snoc, IH
      by (intros b Hb; apply H, elem_of_app; now left).
    rewrite upsertRow_taken.
    + rewrite <- list_fmap_compose. apply list_fmap_ext. intros ? r _.
      simpl. rewrite latest_snoc. unfold replaceBy.
      rewrite latest_id. repeat case_decide; congruence.
    + assert (E : ids (latest batch <$> rows) = ids rows).
      { unfold ids. rewrite <- list_fmap_compose. apply list_fmap_ext.
        intros ? r _. apply latest_id. }
      rewrite E. apply H, elem_of_app. right.
      now apply list_elem_of_singleton.
Qed.

(** After the upsert every row is the latest the batch has for its key. *)
Lemma upsertRows_latest (batch rows : list AnalysisData.t)
  (r : AnalysisData.t) :
  r ∈ upsertRows batch rows -> latest batch r = r.
Proof.
  revert r. induction batch as [|a batch IH] using rev_ind; intros r Hr;
    [reflexivity|].
  rewrite upsertRows_snoc in Hr. rewrite latest_snoc.
  case_decide as E.
  - destruct (decide (AnalysisData.id a ∈ ids (upsertRows batch rows)))
      as [Hin|Hin].
    + rewrite (upsertRow_taken _ _ Hin) in Hr.
      apply list_elem_of_fmap in Hr as (r' & -> & _).
      unfold replaceBy in *. case_decide; [reflexivity|].
      congruence.
    + rewrite (upsertRow_free _ _ Hin) in Hr.
      apply elem_of_app in Hr as [Hr | Hr].
      * exfalso. apply Hin. rewrite E. unfold ids.
        apply list_elem_of_fmap. eauto.
      * now apply list_elem_of_singleton in Hr.
  - apply IH.
    destruct (decide (AnalysisData.id a ∈ ids (upsertRows batch rows)))
      as [Hin|Hin].
    + rewrite (upsertRow_taken _ _ Hin) in Hr.
      apply list_elem_of_fmap in Hr as (r' & -> & Hr').
      unfold replaceBy in *. case_decide; [congruence | exact Hr'].
    + rewrite (upsertRow_free _ _ Hin) in Hr.
      apply elem_of_app in Hr as [Hr | Hr]; [exact Hr|].
      apply list_elem_of_singleton in Hr. congruence.
Qed.

Lemma upsertRows_twice (batch rows : list AnalysisData.t) :
  upsertRows batch (upsertRows batch rows) = upsertRows batch rows.
Proof.
  rewrite (upsertRows_taken batch (upsertRows batch rows))
    by (intros a Ha; now apply upsertRows_covers).
  rewrite <- (list_fmap_id (upsertRows batch rows)) at 2.
  apply list_fmap_ext. intros ? r Hr. simpl.
  apply (upsertRows_latest batch rows). eapply list_elem_of_lookup_2; eauto.
Qed.

(** What the synchronisation does to the table, when it gets that far. *)
Lemma sync_cases (link : Link) (t : string) (w : World) :
  syncLocalStorageToSupabase link t w = w
  \/ exists arr : list AnalysisData.t,
       link = Up
       /\ isSupabaseAvailable (env w) = true
       /\ localStorage w !! analysesKey t = Some (Analyses arr)
       /\ syncLocalStorageToSupabase link t w
          = setSupabase
              (setHistorico (upsertRows arr (historicodeanalise (supabase w)))
                 (supabase w)) w.
Proof.
  unfold syncLocalStorageToSupabase.
  destruct (isSupabaseAvailable (env w)); simpl; [|now left].
  destruct (localStorage w !! analysesKey t) as [[arr| | | |]|];
    try (now left).
  destruct arr as [|a arr], link; try (now left).
  right. eauto.
Qed.

Lemma sync_localStorage (link : Link) (t : string) (w : World) :
  localStorage (syncLocalStorageToSupabase link t w) = localStorage w.
Proof.
  destruct (sync_cases link t w) as [-> | (arr & _ & _ & _ & ->)];
    reflexivity.
Qed.

Lemma sync_Down (t : string) (w : World) :
  syncLocalStorageToSupabase Down t w = w.
Proof.
  destruct (sync_cases Down t w) as [H | (arr & H & _)];
    [exact H | discriminate H].
Qed.

Lemma sync_NoDup (link : Link) (t : string) (w : World) :
  NoDup (ids (historicodeanalise (supabase w))) ->
  NoDup (ids (historicodeanalise
                (supabase (syncLocalStorageToSupabase link t w)))).
Proof.
  intros H.
  destruct (sync_cases link t w) as [-> | (arr & _ & _ & _ & ->)];
    [exact H|].
  simpl. now apply upsertRows_NoDup.
Qed.

Lemma sync_Up_twice (t : string) (w : World) :
  syncLocalStorageToSupabase Up t (syncLocalStorageToSupabase Up t w)
  = syncLocalStorageToSupabase Up t w.
Proof.
  destruct (sync_cases Up t w) as [H | (arr & _ & Ha & Hl & E)];
    [now rewrite !H | rewrite E].
  destruct (sync_cases Up t
                (setSupabase
                   (setHistorico
                      (upsertRows arr (historicodeanalise (supabase w)))
                      (supabase w)) w))
    as [H | (arr' & _ & _ & Hl' & H)]; rewrite H; [reflexivity|].
  simpl in Hl'. rewrite Hl in Hl'. injection Hl' as <-.
  unfold setSupabase, setHistorico. simpl.
  now rewrite upsertRows_twice.
Qed.

(** Either request going through. *)
Definition either (link1 link2 : Link) : Link :=
  match link1, link2 with
  | Down, Down => Down
  | _, _ => Up
  end.

(** C9: synchronising never touches localStorage; it upserts the local
    records by id, so a table without duplicate ids stays without them and
    every local record has its id in the table after a run that went
    through; two runs over the same local data leave what one run leaves. *)
Theorem sync_idempotent_nondestructive
  (link1 link2 : Link) (t : string) (w : World) :
  localStorage (syncLocalStorageToSupabase link1 t w) = localStorage w
  /\ localStorage
       (syncLocalStorageToSupabase link2 t
          (syncLocalStorageToSupabase link1 t w))
     = localStorage w
  /\ syncLocalStorageToSupabase link2 t
       (syncLocalStorageToSupabase link1 t w)
     = syncLocalStorageToSupabase (either link1 link2) t w
  /\ (NoDup (ids (historicodeanalise (supabase w))) ->
      NoDup (ids (historicodeanalise
                    (supabase
                       (syncLocalStorageToSupabase link2 t
                          (syncLocalStorageToSupabase link1 t w))))))
  /\ (forall arr : list AnalysisData.t,
        isSupabaseAvailable (env w) = true ->
        localStorage w !! analysesKey t = Some (Analyses arr) ->
        historicodeanalise (supabase (syncLocalStorageToSupabase Up t w))
        = upsertRows arr (historicodeanalise (supabase w))
        /\ Forall (λ a, AnalysisData.id a
                        ∈ ids (historicodeanalise
                                 (supabase
                                    (syncLocalStorageToSupabase Up t w))))
             arr).
Proof.
  split; [apply sync_localStorage|].
  split; [now rewrite !sync_localStorage|].
  split; [|split].
  - destruct link1, link2; simpl; rewrite ?sync_Down; try reflexivity.
    apply sync_Up_twice.
  - intros H. now do 2 apply sync_NoDup.
  - intros arr Ha Hl.
    assert (E : historicodeanalise
                  (supabase (syncLocalStorageToSupabase Up t w))
                = upsertRows arr (historicodeanalise (supabase w))).
    { unfold syncLocalStorageToSupabase. rewrite Ha, Hl. simpl.
      destruct arr; reflexivity. }
    split; [exact E|]. rewrite E. apply Forall_forall.
    intros a Hin. now apply upsertRows_covers.
Qed.

(** Two analyses saved while Supabase was out of reach, one of them already
    in the table under the same id with an older timestamp. *)
Definition staleRow : AnalysisData.t :=
  {| AnalysisData.id := "a1";
     AnalysisData.userId := "u1";
     AnalysisData.tenantId := "acme";
     AnalysisData.formData := Payload.ofFormData sampleForm;
     AnalysisData.calculatedData :=
       Payload.ofCalculatedData (Utils.calculateMetrics sampleForm);
     AnalysisData.timestamp := "2024-04-30T12:00:00.000Z" |}.

Definition unsynced : World :=
  calls [CallSaveAnalysis Down (sample "a1" "acme");
         CallSaveAnalysis Down (sample "a2" "acme")]
    (setSupabase (setHistorico [staleRow] emptySupabase) (fresh browser)).

Lemma sync_idempotent_nondestructive_witness :
  NoDup (ids (historicodeanalise
                (supabase
                   (syncLocalStorageToSupabase Up "acme"
                      (syncLocalStorageToSupabase Up "acme" unsynced)))))
  /\ historicodeanalise
       (supabase
          (syncLocalStorageToSupabase Up "acme"
             (syncLocalStorageToSupabase Up "acme" unsynced)))
     = [sample "a1" "acme"; sample "a2" "acme"].
Proof.
  split; [|vm_compute; reflexivity].
  apply (sync_idempotent_nondestructive Up Up "acme" unsynced).
  apply NoDup_singleton.
Defined.

End DataSpec.

(** ** More on the gateway *)

Module GatewayProps.
Import Data DataSpec.

(** *** What calls leave alone *)

Definition linkOf (c : Call) : Link :=
  match c with
  | CallSaveUser link _ | CallLogout link | CallSaveAnalysis link _
  | CallDeleteAnalysis link _ _ | CallSync link _ => link
  end.

Lemma env_call (c : Call) (w : World) : env (call w c) = env w.
Proof.
  destruct c as [link u|link|link a|link i t|link t]; simpl.
  - unfold saveUser. guards w link; reflexivity.
  - unfold logout. guards w link; reflexivity.
  - apply env_saveAnalysis.
  - unfold deleteAnalysis. guards w link; try reflexivity;
      destruct (parseArrayOrEmpty _); reflexivity.
  - destruct (sync_cases link t w) as [-> | (arr & _ & _ & _ & ->)];
      reflexivity.
Qed.


Lemma call_without_window (c : Call) (w : World) :
  window (env w) = false -> call w c = w.
Proof.
  intros H.
  assert (Ha : isSupabaseAvailable (env w) = false)
    by (unfold isSupabaseAvailable; now rewrite H).
  destruct c as [link u|link|link a|link i t|link t]; simpl.
  - unfold saveUser. now rewrite H.
  - unfold logout. now rewrite H.
  - unfold saveAnalysis. now rewrite H.
  - unfold deleteAnalysis. now rewrite H.
  - unfold syncLocalStorageToSupabase. now rewrite Ha.
Qed.

Lemma call_offline (c : Call) (w : World) :
  isSupabaseAvailable (env w) = false \/ linkOf c = Down ->
  supabase (call w c) = supabase w.
Proof.
  intros H.
  destruct c as [link u|link|link a|link i t|link t]; simpl in *.
  - unfold saveUser. guards w link; try reflexivity.
    destruct H; discriminate.
  - unfold logout. guards w link; try reflexivity.
    destruct H; discriminate.
  - unfold saveAnalysis. guards w link; try reflexivity;
      try (destruct (parseArrayOrEmpty _); reflexivity).
    destruct H; discriminate.
  - unfold deleteAnalysis. guards w link; try reflexivity;
      try (destruct (parseArrayOrEmpty _); reflexivity).
    destruct H; discriminate.
  - destruct (sync_cases link t w) as [-> | (arr & -> & Ha & _ & _)];
      [reflexivity|].
    destruct H as [H|H]; [congruence | discriminate H].
Qed.

(** X1: where there is no [window] no sequence of gateway calls changes
    anything; where Supabase is not configured, or while every request
    fails, no sequence of calls changes the session or a table of
    Supabase. *)
Theorem calls_never_reach_supabase (cs : list Call) (w : World) :
  (window (env w) = false -> calls cs w = w)
  /\ (isSupabaseAvailable (env w) = false \/ Forall (λ c, linkOf c = Down) cs ->
      supabase (calls cs w) = supabase w).
Proof.
  split.
  - unfold calls. revert w. induction cs as [|c cs IH]; intros w H; simpl;
      [reflexivity|].
    rewrite (call_without_window c w H). now apply IH.
  - unfold calls. revert w. induction cs as [|c cs IH]; intros w H; simpl;
      [reflexivity|].
    rewrite IH.
    + apply call_offline. destruct H as [H|H]; [now left | right].
      now inversion H.
    + rewrite env_call. destruct H as [H|H]; [now left | right].
      now inversion H.
Qed.

Definition server : Env :=
  {| window := false;
     NEXT_PUBLIC_SUPABASE_URL := Some "https://project.supabase.co";
     NEXT_PUBLIC_SUPABASE_ANON_KEY := Some "anon-key" |}.

Lemma calls_never_reach_supabase_witness :
  calls twoTenants (fresh server) = fresh server
  /\ supabase
       (calls [CallSaveAnalysis Down (sample "a1" "acme");
               CallDeleteAnalysis Down "a1" "acme"; CallSync Down "acme"]
          (fresh browser))
     = emptySupabase.
Proof.
  split.
  - apply (calls_never_reach_supabase twoTenants (fresh server)). reflexivity.
  - apply (calls_never_reach_supabase _ (fresh browser)). right.
    repeat constructor.
Defined.

(** *** The cached user *)

(** The remote half of [getCurrentUser] finds nobody. *)
Definition noRemoteUser (link : Link) (w : World) : Prop :=
  isSupabaseAvailable (env w) = false
  \/ link = Down
  \/ authUser (supabase w) = None.

Lemma getCurrentUser_fallback (link : Link) (w : World) :
  window (env w) = true ->
  noRemoteUser link w ->
  getCurrentUser link w
  = match localStorage w !! userKey with
    | Some (UserJson user) =>
        if negb (String.eqb (User.id user) "")
           && negb (String.eqb (User.tenantId user) "")
        then Some user else None
    | _ => None
    end.
Proof.
  intros Hw H. unfold noRemoteUser in H. unfold getCurrentUser.
  rewrite Hw. simpl.
  destruct (isSupabaseAvailable (env w)); [|reflexivity].
  destruct link; [|reflexivity].
  destruct H as [H|[H|H]]; try discriminate H. now rewrite H.
Qed.

Lemma saveUser_world (link : Link) (user : User.t) (w : World) :
  window (env w) = true ->
  env (after w (saveUser link user w)) = env w
  /\ authUser (supabase (after w (saveUser link user w)))
     = authUser (supabase w)
  /\ localStorage (after w (saveUser link user w))
     = <[userKey := UserJson user]> (localStorage w).
Proof.
  intros Hw. unfold saveUser. rewrite Hw. simpl.
  destruct (isSupabaseAvailable (env w)), link; simpl; auto.
Qed.

(** X2: in a browser, when the lookup of the session finds nobody (Supabase
    not configured, the request failing, or no session), [getCurrentUser]
    after [saveUser(user)] returns that user if its [id] and [tenantId] are
    not empty, and null if either is empty, whichever way the save went. *)
Theorem saveUser_getCurrentUser_cached
  (link link' : Link) (user : User.t) (w : World) :
  window (env w) = true ->
  noRemoteUser link' w ->
  getCurrentUser link' (after w (saveUser link user w))
  = if negb (String.eqb (User.id user) "")
       && negb (String.eqb (User.tenantId user) "")
    then Some user else None.
Proof.
  intros Hw H.
  destruct (saveUser_world link user w Hw) as (He & Ha & Hl).
  rewrite getCurrentUser_fallback.
  - now rewrite Hl, lookup_insert_eq.
  - now rewrite He.
  - unfold noRemoteUser in *. now rewrite He, Ha.
Qed.

Definition nameless : User.t :=
  {| User.id := ""; User.email := "ana@acme.example"; User.name := "Ana";
     User.tenantId := "acme"; User.role := "admin";
     User.createdAt := "2024-05-01T09:00:00.000Z" |}.

Lemma saveUser_getCurrentUser_cached_witness :
  getCurrentUser Up (after (fresh browser) (saveUser Up sampleUser (fresh browser)))
  = Some sampleUser
  /\ getCurrentUser Down
       (after (fresh browser) (saveUser Down nameless (fresh browser)))
     = None.
Proof.
  split.
  - apply (saveUser_getCurrentUser_cached Up Up sampleUser (fresh browser));
      [reflexivity | right; right; reflexivity].
  - apply (saveUser_getCurrentUser_cached Down Down nameless (fresh browser));
      [reflexivity | right; left; reflexivity].
Defined.

Definition userIds (us : list User.t) : list string := User.id <$> us.

Lemma filter_no_user (us : list User.t) (u : User.t) :
  ¬ Exists (λ r, User.id r = User.id u) us ->
  filter (λ r, User.id r = User.id u) us = [].
Proof.
  induction us as [|r us IH]; intros E; [reflexivity|].
  rewrite filter_cons_False.
  - apply IH. intros H. apply E. now right.
  - intros H. apply E. now left.
Qed.

Lemma filter_upsertUser (us : list User.t) (u : User.t) :
  NoDup (userIds us) ->
  filter (λ r, User.id r = User.id u) (upsertUser us u) = [u].
Proof.
  unfold upsertUser, userIds. intros Hnd. case_decide as E.
  - induction us as [|r us IH]; [now apply Exists_nil in E|].
    simpl in Hnd. apply NoDup_cons in Hnd as [Hr Hnd].
    rewrite fmap_cons. case_decide as Er.
    + rewrite filter_cons_True by reflexivity. f_equal.
      assert (Hno : Forall (λ r', User.id r' ≠ User.id u) us).
      { apply Forall_forall. intros r' Hr' Heq. apply Hr.
        rewrite Er, <- Heq. apply list_elem_of_fmap. eauto. }
      clear -Hno. induction us as [|r' us IH]; [reflexivity|].
      apply Forall_cons in Hno as [H1 H2]. rewrite fmap_cons.
      case_decide; [contradiction|].
      rewrite filter_cons_False by assumption. auto.
    + rewrite filter_cons_False by assumption. apply IH; [exact Hnd|].
      apply Exists_cons in E as [E|E]; [contradiction | exact E].
  - rewrite filter_app, (filter_no_user us u E).
    now rewrite filter_cons_True, filter_nil by reflexivity.
Qed.

(** X3: with a session for [user.id] and a table Usuario without duplicate
    ids, [getCurrentUser] after a [saveUser(user)] whose upsert succeeded
    returns exactly that user from Supabase, when its own requests go
    through. *)
Theorem saveUser_getCurrentUser_remote (user : User.t) (w : World) :
  isSupabaseAvailable (env w) = true ->
  authUser (supabase w) = Some (User.id user) ->
  NoDup (userIds (Usuario (supabase w))) ->
  getCurrentUser Up (after w (saveUser Up user w)) = Some user.
Proof.
  intros Ha Hs Hnd.
  assert (Hw : window (env w) = true).
  { unfold isSupabaseAvailable in Ha. now destruct (window (env w)). }
  unfold saveUser. rewrite Hw, Ha. simpl.
  unfold getCurrentUser. simpl. rewrite Hw, Ha, Hs. simpl.
  now rewrite filter_upsertUser.
Qed.

Definition signedIn : World :=
  setSupabase
    (setAuthUser (Some "u1") (setUsuario [nameless] emptySupabase))
    (fresh browser).

Lemma saveUser_getCurrentUser_remote_witness :
  getCurrentUser Up (after signedIn (saveUser Up sampleUser signedIn))
  = Some sampleUser.
Proof.
  apply (saveUser_getCurrentUser_remote sampleUser signedIn);
    [reflexivity | reflexivity | apply NoDup_singleton].
Defined.

Lemma logout_clears (link link' : Link) (w : World) :
  (window (env w) = true -> localStorage (logout link w) !! userKey = None)
  /\ (link = Up \/ noRemoteUser link' w ->
      getCurrentUser link' (logout link w) = None).
Proof.
  unfold noRemoteUser, logout, getCurrentUser.
  destruct (window (env w)) eqn:Hw; simpl;
    [|rewrite Hw; simpl; split; [discriminate | reflexivity]].
  split.
  - intros _. destruct (isSupabaseAvailable (env w)), link; simpl;
      apply lookup_delete_eq.
  - intros H.
    destruct (isSupabaseAvailable (env w)) eqn:Ha, link; simpl;
      rewrite ?Hw, ?Ha; simpl; rewrite ?lookup_delete_eq;
      try reflexivity.
    + now destruct link'.
    + destruct link'; [|reflexivity].
      destruct H as [H|[H|[H|H]]]; try discriminate H. now rewrite H.
Qed.

(** X4: [logout] in a browser always removes the cached user, and
    [getCurrentUser] after it returns null whenever the sign-out went
    through or the later lookup of the session finds nobody. *)
Theorem logout_getCurrentUser (link link' : Link) (w : World) :
  (window (env w) = true -> localStorage (logout link w) !! userKey = None)
  /\ (link = Up \/ noRemoteUser link' w ->
      getCurrentUser link' (logout link w) = None).
Proof. apply logout_clears. Qed.

Definition staySignedIn : World :=
  after signedIn (saveUser Up sampleUser signedIn).

Lemma logout_getCurrentUser_witness :
  getCurrentUser Up (logout Up staySignedIn) = None
  /\ getCurrentUser Down (logout Down staySignedIn) = None
  /\ getCurrentUser Up (logout Down staySignedIn) = Some sampleUser.
Proof.
  split; [|split].
  - apply (logout_getCurrentUser Up Up staySignedIn). now left.
  - apply (logout_getCurrentUser Down Down staySignedIn).
    right. right. now left.
  - reflexivity.
Defined.

Lemma upsertUser_twice (us : list User.t) (u : User.t) :
  upsertUser (upsertUser us u) u = upsertUser us u.
Proof.
  destruct (decide (Exists (λ r, User.id r = User.id u) us)) as [E|E].
  - assert (H1 : upsertUser us u
                 = (λ r, if decide (User.id r = User.id u) then u else r)
                     <$> us)
      by (unfold upsertUser; now rewrite decide_True).
    rewrite H1. unfold upsertUser. rewrite decide_True.
    + rewrite <- list_fmap_compose. apply list_fmap_ext. intros ? r _. simpl.
      repeat case_decide; congruence.
    + apply Exists_fmap. eapply Exists_impl; [exact E|]. simpl.
      intros r Hr. now rewrite decide_True.
  - assert (H1 : upsertUser us u = us ++ [u])
      by (unfold upsertUser; now rewrite decide_False).
    rewrite H1. unfold upsertUser. rewrite decide_True.
    + rewrite fmap_app. simpl. rewrite decide_True by reflexivity. f_equal.
      rewrite <- (list_fmap_id us) at 2. apply list_fmap_ext.
      intros ? r Hr. simpl. case_decide as Er; [|reflexivity].
      exfalso. apply E. apply Exists_exists. exists r. split; [|exact Er].
      eapply list_elem_of_lookup_2; eauto.
    + apply Exists_app. right. now left.
Qed.

(** X5: saving the same user twice, the two requests faring alike, leaves
    what saving it once leaves: no second row, one cached user. *)
Theorem saveUser_twice (link : Link) (user : User.t) (w : World) :
  after (after w (saveUser link user w))
    (saveUser link user (after w (saveUser link user w)))
  = after w (saveUser link user w).
Proof.
  unfold saveUser. guards w link; rewrite ?Hwindow, ?Havailable; simpl;
    try reflexivity;
    unfold setLocalStorage, setSupabase, setUsuario; simpl;
    now rewrite ?upsertUser_twice, insert_insert_eq.
Qed.

(** *** What a read sees after a write *)

(** What [loadAnalyses] returns when served by [p]. *)
Definition loaded (p : Path) (t : string) (w : World) : list AnalysisData.t :=
  match p with
  | NoWindow => []
  | ViaSupabase => selectByTenant t (historicodeanalise (supabase w))
  | ViaLocalStorage => readAnalyses (localStorage w !! analysesKey t)
  end.

Lemma loadAnalyses_loaded (link : Link) (t : string) (w : World) :
  loadAnalyses link t w
  = (served (env w) link, loaded (served (env w) link) t w).
Proof. unfold loadAnalyses, served. guards w link; reflexivity. Qed.

(** The ways a call of [deleteAnalysis] can go. *)
Lemma delete_cases (link : Link) (i t : string) (w : World) :
  (served (env w) link = NoWindow
   /\ deleteAnalysis link i t w = Fulfilled (NoWindow, w))
  \/ (served (env w) link = ViaLocalStorage
      /\ deleteAnalysis link i t w = Rejected)
  \/ (served (env w) link = ViaSupabase
      /\ deleteAnalysis link i t w
         = Fulfilled
             (ViaSupabase,
              setSupabase
                (setHistorico
                   (deleteRows i t (historicodeanalise (supabase w)))
                   (supabase w)) w))
  \/ (served (env w) link = ViaLocalStorage
      /\ exists arr,
           parseArrayOrEmpty (localStorage w !! analysesKey t) = Some arr
           /\ deleteAnalysis link i t w
              = Fulfilled
                  (ViaLocalStorage,
                   setLocalStorage
                     (<[analysesKey t
                        := Analyses
                             (filter (λ a, AnalysisData.id a ≠ i) arr)]>
                        (localStorage w)) w)).
Proof.
  unfold deleteAnalysis, served. guards w link;
    try (destruct (parseArrayOrEmpty _) as [arr|] eqn:E; simpl);
    eauto 10.
Qed.

(** The three things a call of [saveAnalysis] can have done. *)
Lemma save_cases (link : Link) (a : AnalysisData.t) (w : World) :
  after w (saveAnalysis link a w) = w
  \/ (¬ Exists (λ r, AnalysisData.id r = AnalysisData.id a)
          (historicodeanalise (supabase w))
      /\ after w (saveAnalysis link a w)
         = setSupabase
             (setHistorico (historicodeanalise (supabase w) ++ [a])
                (supabase w)) w)
  \/ (exists arr,
        parseArrayOrEmpty
          (localStorage w !! analysesKey (AnalysisData.tenantId a))
        = Some arr
        /\ after w (saveAnalysis link a w)
           = setLocalStorage
               (<[analysesKey (AnalysisData.tenantId a)
                  := Analyses (arr ++ [AnalysisData.viaJSON a])]>
                  (localStorage w)) w).
Proof.
  unfold saveAnalysis, insertRow. guards w link; auto.
  1: case_decide as E; simpl.
  all: destruct (parseArrayOrEmpty _) as [arr|] eqn:E'; simpl; eauto 8.
Qed.







(** *** The two filtered reads *)

Lemma prefix_app (t s : string) :
  String.prefix t s = true <-> exists b, s = (t +:+ b)%string.
Proof.
  revert s. induction t as [|c t IH]; intros s; simpl.
  - split; [intros _; now exists s | intros _; now destruct s].
  - destruct s as [|d s]; [split; [discriminate | intros [b H]; discriminate]|].
    simpl. destruct (Ascii.ascii_dec c d) as [->|Hne].
    + rewrite IH. split; intros [b H]; exists b.
      * subst s. reflexivity.
      * change (String d s = String d (t +:+ b)) in H. congruence.
    + split; [discriminate|]. intros [b H].
      change (String d s = String c (t +:+ b)) in H. congruence.
Qed.

(** [includesText] is containment: the text occurs somewhere in [s]. *)
Lemma includesText_spec (t s : string) :
  includesText t s = true
  <-> exists a b, s = (a +:+ t +:+ b)%string.
Proof.
  induction s as [|c s IH].
  - cbn [includesText]. rewrite orb_false_r, prefix_app. split.
    + intros [b H]. exists EmptyString, b. exact H.
    + intros (a & b & H). destruct a as [|d a]; [now exists b|].
      exfalso. change (EmptyString = String d (a +:+ t +:+ b)) in H.
      discriminate H.
  - cbn [includesText]. rewrite orb_true_iff, prefix_app, IH. split.
    + intros [[b H] | (a & b & H)].
      * exists EmptyString, b. exact H.
      * exists (String c a), b. rewrite H. reflexivity.
    + intros (a & b & H). destruct a as [|d a].
      * left. now exists b.
      * right. change (String c s = String d (a +:+ t +:+ b)) in H.
        injection H as _ H. now exists a, b.
Qed.

(** X8: [getAnalysisByPeriod] returns, in the order of [loadAnalyses],
    exactly the loaded records whose [periodo] contains the text somewhere;
    with the empty text it returns everything [loadAnalyses] does. *)
Theorem getAnalysisByPeriod_contains
  (link : Link) (t contains : string) (w : World) :
  (forall a : AnalysisData.t,
     In a (getAnalysisByPeriod link t contains w)
     <-> In a (snd (loadAnalyses link t w))
         /\ exists x y,
              Payload.periodo (AnalysisData.formData a)
              = (x +:+ contains +:+ y)%string)
  /\ getAnalysisByPeriod link t contains w
     = List.filter
         (λ a, includesText contains
                 (Payload.periodo (AnalysisData.formData a)))
         (snd (loadAnalyses link t w))
  /\ getAnalysisByPeriod link t "" w = snd (loadAnalyses link t w).
Proof.
  split; [|split].
  - intros a. unfold getAnalysisByPeriod.
    now rewrite List.filter_In, includesText_spec.
  - reflexivity.
  - unfold getAnalysisByPeriod.
    induction (snd (loadAnalyses link t w)) as [|a l IH]; [reflexivity|].
    simpl. replace (includesText "" _) with true; [now rewrite IH|].
    symmetry. apply includesText_spec.
    now exists EmptyString, (Payload.periodo (AnalysisData.formData a)).
Qed.

(** X9: [getAnalysesByUser] returns the records of [loadAnalyses] that have
    that [userId]: up to their order when Supabase answers the query, and
    exactly those of the fallback read otherwise. *)
Theorem getAnalysesByUser_filters_loadAnalyses
  (link' : Link) (userId t : string) (w : World) :
  getAnalysesByUser Up link' userId t w
  ≡ₚ filter (λ a, AnalysisData.userId a = userId)
       (snd (loadAnalyses Up t w))
  /\ getAnalysesByUser Down link' userId t w
     = filter (λ a, AnalysisData.userId a = userId)
         (snd (loadAnalyses link' t w))
  /\ (forall (link : Link) (a : AnalysisData.t),
        a ∈ getAnalysesByUser link link' userId t w ->
        AnalysisData.userId a = userId).
Proof.
  assert (Hup : getAnalysesByUser Up link' userId t w
                ≡ₚ filter (λ a, AnalysisData.userId a = userId)
                     (snd (loadAnalyses Up t w))).
  { unfold getAnalysesByUser, loadAnalyses.
    destruct (window (env w)) eqn:Hwindow; simpl; [|reflexivity].
    destruct (isSupabaseAvailable (env w)) eqn:Havailable; simpl.
    - unfold selectByUser, selectByTenant. now rewrite !orderDesc_perm.
    - reflexivity. }
  assert (Hdown : getAnalysesByUser Down link' userId t w
                  = filter (λ a, AnalysisData.userId a = userId)
                      (snd (loadAnalyses link' t w))).
  { unfold getAnalysesByUser.
    destruct (window (env w)) eqn:Hwindow; simpl.
    - now destruct (isSupabaseAvailable (env w)).
    - unfold loadAnalyses. now rewrite Hwindow. }
  split; [exact Hup | split; [exact Hdown|]].
  intros link a Hin. destruct link.
  - rewrite Hup in Hin. now apply list_elem_of_filter in Hin.
  - rewrite Hdown in Hin. now apply list_elem_of_filter in Hin.
Qed.

(** *** Keys of the tables *)

(** No two rows of a table share their [id]. *)
Definition keysUnique (w : World) : Prop :=
  NoDup (ids (historicodeanalise (supabase w)))
  /\ NoDup (userIds (Usuario (supabase w))).

Lemma upsertUser_NoDup (us : list User.t) (u : User.t) :
  NoDup (userIds us) -> NoDup (userIds (upsertUser us u)).
Proof.
  unfold upsertUser, userIds. intros H. case_decide as E.
  - rewrite <- list_fmap_compose.
    erewrite list_fmap_ext; [exact H|]. intros ? r _. simpl.
    now case_decide.
  - rewrite fmap_app. apply NoDup_app. repeat split;
      [exact H | | apply NoDup_singleton].
    intros x Hx Hx'. apply list_elem_of_singleton in Hx'. subst x.
    apply E. apply list_elem_of_fmap in Hx as (r & Hr & Hin).
    apply Exists_exists. eauto.
Qed.

Lemma deleteRows_NoDup (i t : string) (rows : list AnalysisData.t) :
  NoDup (ids rows) -> NoDup (ids (deleteRows i t rows)).
Proof.
  unfold ids, deleteRows. intros H. eapply sublist_NoDup; [exact H|].
  apply fmap_sublist, sublist_filter.
Qed.

Lemma keysUnique_call (c : Call) (w : World) :
  keysUnique w -> keysUnique (call w c).
Proof.
  intros [Hr Hu].
  destruct c as [link u|link|link a|link i t|link t]; simpl.
  - unfold saveUser. guards w link; split; simpl; auto.
    now apply upsertUser_NoDup.
  - unfold logout. guards w link; split; simpl; auto.
  - destruct (save_cases link a w) as [E | [(Hn & E) | (arr & _ & E)]];
      rewrite E; split; simpl; auto.
    unfold ids. rewrite fmap_app. apply NoDup_app. repeat split;
      [exact Hr | | apply NoDup_singleton].
    intros x Hx Hx'. apply list_elem_of_singleton in Hx'. subst x.
    apply Hn. now apply key_taken.
  - destruct (delete_cases link i t w)
      as [(_ & E) | [(_ & E) | [(_ & E) | (_ & arr & _ & E)]]];
      rewrite E; split; simpl; auto.
    now apply deleteRows_NoDup.
  - split.
    + now apply sync_NoDup.
    + destruct (sync_cases link t w) as [-> | (arr & _ & _ & _ & ->)];
        exact Hu.
Qed.

(** X10: the gateway never gives two rows of a table the same [id]: if no
    table of Supabase holds a duplicate id, none does after any sequence of
    calls (an insert under a taken id falls back to localStorage, the
    upserts replace). *)
Theorem calls_keep_keys_unique (cs : list Call) (w : World) :
  keysUnique w -> keysUnique (calls cs w).
Proof.
  unfold calls. revert w. induction cs as [|c cs IH]; intros w H; simpl;
    [exact H|].
  now apply IH, keysUnique_call.
Qed.

(** The same analysis saved twice, then synchronised. *)
Definition savedTwice : list Call :=
  [ CallSaveAnalysis Up (sample "a1" "acme");
    CallSaveAnalysis Up (sample "a1" "acme");
    CallSync Up "acme";
    CallSaveUser Up sampleUser;
    CallSaveUser Up sampleUser ].

Lemma calls_keep_keys_unique_witness :
  keysUnique (calls savedTwice (fresh browser))
  /\ stores (calls savedTwice (fresh browser))
     = ([sample "a1" "acme"], Some (Analyses [sample "a1" "acme"])).
Proof.
  split; [|vm_compute; reflexivity].
  apply (calls_keep_keys_unique savedTwice (fresh browser)).
  split; apply NoDup_nil_2.
Defined.

(** *** The migration *)

Lemma latest_unique (batch : list AnalysisData.t) (a r : AnalysisData.t) :
  NoDup (ids batch) ->
  a ∈ batch ->
  AnalysisData.id r = AnalysisData.id a ->
  latest batch r = a.
Proof.
  induction batch as [|b batch IH] using rev_ind; intros Hnd Hin Hid;
    [now apply elem_of_nil in Hin|].
  unfold ids in Hnd. rewrite fmap_app in Hnd.
  apply NoDup_app in Hnd as (Hnd & Hfresh & _).
  rewrite latest_snoc. apply elem_of_app in Hin as [Hin|Hin].
  - rewrite decide_False; [now apply IH|].
    intros E. apply (Hfresh (AnalysisData.id a)).
    + apply list_elem_of_fmap. eauto.
    + simpl. rewrite E, Hid. now left.
  - apply list_elem_of_singleton in Hin. subst b.
    now rewrite decide_True.
Qed.

Lemma upsertRows_holds (batch rows : list AnalysisData.t)
  (a : AnalysisData.t) :
  NoDup (ids batch) -> a ∈ batch -> a ∈ upsertRows batch rows.
Proof.
  intros Hnd Hin.
  pose proof (upsertRows_covers batch rows a Hin) as Hc.
  unfold ids in Hc. apply list_elem_of_fmap in Hc as (r & Hid & Hr).
  pose proof (upsertRows_latest batch rows r Hr) as Hl.
  rewrite (latest_unique batch a r Hnd Hin) in Hl by congruence.
  now subst r.
Qed.

(** X11: after a synchronisation that went through, the remote read
    returns every analysis of the tenant's local list, provided the local
    records have distinct ids and carry the tenant id they are stored
    under. *)
Theorem sync_uploads_local_analyses
  (t : string) (w : World) (arr : list AnalysisData.t) :
  isSupabaseAvailable (env w) = true ->
  localStorage w !! analysesKey t = Some (Analyses arr) ->
  NoDup (ids arr) ->
  Forall (λ a, AnalysisData.tenantId a = t) arr ->
  Forall
    (λ a, a ∈ snd (loadAnalyses Up t (syncLocalStorageToSupabase Up t w)))
    arr.
Proof.
  intros Ha Hl Hnd Ht.
  assert (Hw : window (env w) = true).
  { unfold isSupabaseAvailable in Ha. now destruct (window (env w)). }
  apply Forall_forall. intros a Hin.
  unfold loadAnalyses, syncLocalStorageToSupabase. rewrite Ha, Hl. simpl.
  destruct arr as [|b arr]; [now apply elem_of_nil in Hin|].
  simpl. rewrite Hw, Ha. simpl.
  apply selectByTenant_elem. split.
  - rewrite Forall_forall in Ht. now apply Ht.
  - now apply (upsertRows_holds (b :: arr)).
Qed.

Lemma sync_uploads_local_analyses_witness :
  Forall
    (λ a, a ∈ snd (loadAnalyses Up "acme"
                     (syncLocalStorageToSupabase Up "acme" unsynced)))
    [sample "a1" "acme"; sample "a2" "acme"].
Proof.
  apply (sync_uploads_local_analyses "acme" unsynced).
  - reflexivity.
  - reflexivity.
  - vm_compute. apply NoDup_cons. split; [|apply NoDup_singleton].
    intros H. apply list_elem_of_singleton in H. discriminate H.
  - repeat constructor.
Defined.

End GatewayProps.

(** ** More on normalizeNumber and the metrics *)

Module UtilsProps.
Import JS Utils NormalizeSpec.

(** Decide the tests on a code unit that is known to lie in a range. *)
Ltac unit_tests :=
  repeat match goal with
         | |- context [(?a =? ?b)%N] =>
             destruct (N.eqb_spec a b); try lia
         | |- context [(?a <=? ?b)%N] =>
             destruct (N.leb_spec a b); try lia
         end.

Lemma numeric_unit_range (c : codeUnit) :
  isNumericUnit c = true -> (44 <= c <= 57)%N.
Proof.
  unfold isNumericUnit, isDigit, cu_0, cu_9, cu_dot, cu_comma, cu_minus.
  unit_tests; simpl; intros H; try discriminate H; lia.
Qed.

Lemma numeric_unit_kept (c : codeUnit) :
  isNumericUnit c = true ->
  isWhiteSpace c = false
  /\ negb ((c =? cu_R)%N || (c =? cu_dollar)%N || isWhiteSpace c) = true.
Proof.
  intros H. apply numeric_unit_range in H.
  unfold isWhiteSpace, cu_R, cu_dollar. unit_tests; simpl; auto.
Qed.

Lemma filter_weaker {A} (f g : A -> bool) (l : list A) :
  (forall x, f x = true -> g x = true) ->
  List.filter f (List.filter g l) = List.filter f l.
Proof.
  intros H. induction l as [|x l IH]; [reflexivity|]. simpl.
  destruct (g x) eqn:Eg; simpl; [now rewrite IH|].
  destruct (f x) eqn:Ef; [|exact IH].
  apply H in Ef. congruence.
Qed.

Lemma keepNumeric_removeCurrency (s : jsstring) :
  keepNumeric (removeCurrency s) = keepNumeric s.
Proof.
  apply filter_weaker. intros c H. now apply numeric_unit_kept.
Qed.

Lemma keepNumeric_trimStart (s : jsstring) :
  keepNumeric (trimStart s) = keepNumeric s.
Proof.
  induction s as [|c s IH]; [reflexivity|]. simpl.
  destruct (isWhiteSpace c) eqn:E; [|reflexivity].
  rewrite IH. destruct (isNumericUnit c) eqn:En; [|reflexivity].
  apply numeric_unit_kept in En as [En _]. congruence.
Qed.

Lemma keepNumeric_trim (s : jsstring) : keepNumeric (trim s) = keepNumeric s.
Proof.
  unfold trim, keepNumeric. rewrite List.filter_rev.
  fold (keepNumeric (trimStart (rev (trimStart s)))).
  rewrite keepNumeric_trimStart. unfold keepNumeric.
  rewrite List.filter_rev, rev_involutive. apply keepNumeric_trimStart.
Qed.

Lemma keepNumeric_twice (s : jsstring) :
  keepNumeric (keepNumeric s) = keepNumeric s.
Proof. apply filter_weaker. auto. Qed.

Lemma normalizeNumber_numeric_units (s : jsstring) :
  normalizeNumber (VStr s)
  = if isFinite (parseFloat (separators (keepNumeric s)))
    then parseFloat (separators (keepNumeric s)) else 0%float.
Proof.
  destruct s as [|c s]; [reflexivity|].
  unfold normalizeNumber, cleaned.
  now rewrite keepNumeric_removeCurrency, keepNumeric_trim.
Qed.

(** X12: the result of normalizeNumber on a string depends only on its
    digits, dots, commas and minus signs: two strings that agree once every
    other character is dropped normalise to the same number, wherever those
    other characters (currency symbols, spaces, letters) stand. *)
Theorem normalizeNumber_ignores_other_characters (s s' : jsstring) :
  keepNumeric s = keepNumeric s' ->
  normalizeNumber (VStr s) = normalizeNumber (VStr s').
Proof.
  intros H. now rewrite !normalizeNumber_numeric_units, H.
Qed.

Lemma normalizeNumber_ignores_other_characters_witness :
  normalizeNumber (VStr (js "  R$ 1.234,56 BRL"))
  = normalizeNumber (VStr (js "1.234,56"))
  /\ normalizeNumber (VStr (js "1 0 0 0")) = normalizeNumber (VStr (js "1000")).
Proof.
  split; apply normalizeNumber_ignores_other_characters; reflexivity.
Defined.

Lemma countOf_removeAll (c : codeUnit) (s : jsstring) :
  countOf c (removeAll c s) = 0.
Proof.
  apply countOf_absent, includes_false_Forall, List.Forall_forall.
  intros x Hx. unfold removeAll in Hx. apply List.filter_In in Hx as [_ Hx].
  apply negb_true_iff in Hx. now apply N.eqb_neq.
Qed.

Lemma countOf_replaceFirst_insert (c d : codeUnit) (s : jsstring) :
  c <> d ->
  countOf d (replaceFirst c [d] s) <= S (countOf d s).
Proof.
  intros Hne. unfold countOf. induction s as [|x s IH]; simpl; [lia|].
  destruct (N.eqb_spec x c) as [->|Hx]; simpl.
  - rewrite N.eqb_refl. simpl.
    destruct (N.eqb_spec d c); [congruence | reflexivity].
  - destruct (d =? x)%N; simpl; lia.
Qed.

Lemma countOf_replaceFirst_remove (c : codeUnit) (s : jsstring) :
  countOf c (replaceFirst c [] s) = pred (countOf c s).
Proof.
  unfold countOf. induction s as [|x s IH]; simpl; [reflexivity|].
  destruct (N.eqb_spec x c) as [->|Hx]; simpl.
  - now rewrite N.eqb_refl.
  - destruct (N.eqb_spec c x); [congruence | exact IH].
Qed.

(** X13: whatever the input, the text normalizeNumber hands to parseFloat
    holds at most one dot: the separators never leave two decimal points. *)
Theorem separators_at_most_one_dot (clean : jsstring) :
  countOf cu_dot (separators clean) <= 1.
Proof.
  assert (Hcd : cu_comma <> cu_dot) by discriminate.
  unfold separators.
  destruct (includes cu_comma clean) eqn:Hc,
           (includes cu_dot clean) eqn:Hd; simpl.
  - pose proof (countOf_replaceFirst_insert cu_comma cu_dot
                  (removeAll cu_dot clean) Hcd) as H.
    rewrite countOf_removeAll in H. exact H.
  - pose proof (countOf_replaceFirst_insert cu_comma cu_dot clean Hcd) as H.
    rewrite (countOf_absent _ _ Hd) in H. exact H.
  - destruct (Nat.ltb_spec 1 (countOf cu_dot clean)) as [Hn|Hn].
    + rewrite countOf_removeAll. lia.
    + destruct (Nat.eqb (countOf cu_dot clean) 1); [|exact Hn].
      destruct (isThousandsGroup _); [|exact Hn].
      rewrite countOf_replaceFirst_remove. lia.
  - rewrite (countOf_absent _ _ Hd). lia.
Qed.

(** *** What a valid form guarantees *)

Lemma zero_spec : Prim2SF 0%float = S754_zero false.
Proof. reflexivity. Qed.

(** A number that is not [<= 0] is NaN or positive. *)
Lemma not_leb_zero (x : float) :
  (x <=? 0)%float = false -> is_nan x = true \/ (0 <? x)%float = true.
Proof.
  unfold is_nan.
  rewrite FloatAxioms.leb_spec, FloatAxioms.ltb_spec, FloatAxioms.eqb_spec,
    zero_spec.
  destruct (Prim2SF x) as [s|s| |s m e]; try destruct s; simpl; auto;
    discriminate.
Qed.

Lemma orZero_not_nan (x : float) : is_nan (orZero x) = false.
Proof.
  unfold orZero, truthy. destruct (is_nan x) eqn:E; simpl; [reflexivity|].
  destruct (is_zero x); simpl; [reflexivity | exact E].
Qed.

Lemma pushIf_nil {A} (c : bool) (x : A) (xs : list A) :
  pushIf c x xs = [] <-> c = false /\ xs = [].
Proof.
  unfold pushIf. destruct c.
  - split; [intros H; now apply app_eq_nil in H as [_ H] | intros [H _]; discriminate H].
  - tauto.
Qed.

Definition infiniteForm : FormData :=
  {| vbv := Some infinity; valoresPagosCliente := Some infinity;
     vrl := Some 1%float; vrlj := None; additionalValues := [];
     periodo := "2024-05"; tenantId := "acme" |}.

Example infinite_form_is_valid :
  isValid (validateFormData infiniteForm) = true
  /\ is_nan (rbr (calculateMetrics infiniteForm)) = true.
Proof. split; reflexivity. Qed.

(** X14: a form is valid exactly when none of the three tests fires, and
    for a valid form vbv is positive, valoresPagosCliente is not negative,
    and either rbr is positive and rentabilidadeLiquida is rol / rbr * 100,
    or rbr is NaN (vbv and valoresPagosCliente both infinite) and
    rentabilidadeLiquida is 0. *)
Theorem valid_form_metrics (data : FormData) :
  let vbv' := orZero (Number (vbv data)) in
  let vpc' := orZero (Number (valoresPagosCliente data)) in
  let c := calculateMetrics data in
  (isValid (validateFormData data) = true
   <-> (vbv' <=? 0)%float = false
       /\ (vpc' <? 0)%float = false
       /\ (rbr c <=? 0)%float = false)
  /\ (isValid (validateFormData data) = true ->
      (0 <? vbv')%float = true
      /\ (vpc' <? 0)%float = false
      /\ (((0 <? rbr c)%float = true
           /\ rentabilidadeLiquida c = (rol c / rbr c * 100)%float)
          \/ (is_nan (rbr c) = true
              /\ rentabilidadeLiquida c = 0%float))).
Proof.
  cbv zeta.
  assert (Hiff : isValid (validateFormData data) = true
                 <-> (orZero (Number (vbv data)) <=? 0)%float = false
                     /\ (orZero (Number (valoresPagosCliente data)) <? 0)%float
                        = false
                     /\ (rbr (calculateMetrics data) <=? 0)%float = false).
  { unfold validateFormData, calculateMetrics. simpl.
    rewrite Nat.eqb_eq, length_zero_iff_nil, !pushIf_nil. tauto. }
  split; [exact Hiff|].
  intros H. apply Hiff in H as (Hv & Hp & Hr).
  split; [|split; [exact Hp|]].
  - destruct (not_leb_zero _ Hv) as [Hn|Hpos]; [|exact Hpos].
    now rewrite orZero_not_nan in Hn.
  - unfold calculateMetrics in *. simpl in *.
    destruct (0 <? _)%float eqn:E; [now left | right].
    split; [|reflexivity].
    destruct (not_leb_zero _ Hr) as [Hn|Hpos]; [exact Hn | congruence].
Qed.

Lemma valid_form_metrics_witness :
  (0 <? rbr (calculateMetrics (generateTestData "2024-05")))%float = true
  \/ is_nan (rbr (calculateMetrics (generateTestData "2024-05"))) = true.
Proof.
  destruct (proj2 (valid_form_metrics (generateTestData "2024-05")) eq_refl)
    as (_ & _ & [[H _] | [H _]]); [now left | now right].
Defined.

End UtilsProps.

(** ** The currency input *)

Module CurrencyInputProps.
Import JS Utils NormalizeSpec UtilsProps CurrencyInput.

(** A key with one character, pressed without Ctrl or Cmd. *)
Definition plainKey (c : codeUnit) : KeyboardEvent :=
  {| key := [c]; ctrlKey := false; metaKey := false |}.

(** The characters the key filter lets through. *)
Definition typable (c : codeUnit) : Prop :=
  isDigit c = true \/ c = cu_comma \/ c = cu_dot.

Lemma handleKeyDown_plain (c : codeUnit) :
  handleKeyDown (plainKey c) = false <-> typable c.
Proof.
  unfold handleKeyDown, plainKey, typable.
  set (keys := allowedKeys). vm_compute in keys. subst keys. simpl.
  rewrite !andb_false_r, !andb_true_r. simpl.
  unfold cu_comma, cu_dot.
  destruct (isDigit c); simpl; [tauto|].
  destruct (N.eqb_spec c 44), (N.eqb_spec c 46); simpl; split; intros H;
    try discriminate H; auto;
    destruct H as [H|[H|H]]; congruence.
Qed.

Lemma typable_numeric (c : codeUnit) : typable c -> isNumericUnit c = true.
Proof.
  unfold typable, isNumericUnit. intros [H|[->| ->]];
    [now rewrite H | reflexivity | reflexivity].
Qed.

Lemma filter_all {A} (f : A -> bool) (l : list A) :
  Forall (fun x => f x = true) l -> List.filter f l = l.
Proof.
  induction l as [|x l IH]; intros H; [reflexivity|].
  apply Forall_cons_iff in H as [Hx H]. simpl. now rewrite Hx, IH.
Qed.

Lemma trimStart_none (s : jsstring) :
  Forall (fun c => isWhiteSpace c = false) s -> trimStart s = s.
Proof.
  intros H. destruct s as [|c s]; [reflexivity|].
  apply Forall_cons_iff in H as [Hc _]. simpl. now rewrite Hc.
Qed.

Lemma trim_none (s : jsstring) :
  Forall (fun c => isWhiteSpace c = false) s -> trim s = s.
Proof.
  intros H. unfold trim. rewrite (trimStart_none s H).
  rewrite trimStart_none; [apply rev_involutive|].
  apply List.Forall_forall. intros c Hc. apply List.in_rev in Hc.
  rewrite List.Forall_forall in H. now apply H.
Qed.

Lemma typed_text_clean (s : jsstring) :
  Forall typable s -> keepNumeric (removeCurrency (trim s)) = s.
Proof.
  intros H. rewrite keepNumeric_removeCurrency, keepNumeric_trim.
  apply filter_all. eapply List.Forall_impl; [|exact H].
  apply typable_numeric.
Qed.

(** X15: the key filter lets a one-character key through, without Ctrl or
    Cmd, exactly when it is a digit, a comma or a dot, and never blocks a
    key pressed with Ctrl or Cmd.  For text made of such characters the
    number handed to [onChange] is the guarded parse of the text with its
    separators resolved, and a single dot with no comma is dropped exactly
    when three digits follow it. *)
Theorem typed_text_normalisation :
  (forall c : codeUnit, handleKeyDown (plainKey c) = false <-> typable c)
  /\ (forall (k : jsstring) (ctrl meta : bool),
        ctrl || meta = true ->
        handleKeyDown {| key := k; ctrlKey := ctrl; metaKey := meta |} = false)
  /\ (forall s : jsstring,
        Forall typable s ->
        s <> [] ->
        snd (handleInputChange s)
        = if isFinite (parseFloat (separators s))
          then parseFloat (separators s) else 0%float)
  /\ (forall before after : jsstring,
        Forall typable (before ++ cu_dot :: after) ->
        includes cu_dot before = false ->
        includes cu_dot after = false ->
        includes cu_comma (before ++ cu_dot :: after) = false ->
        separators (before ++ cu_dot :: after)
        = if exactlyThreeDigits after then before ++ after
          else before ++ cu_dot :: after).
Proof.
  split; [exact handleKeyDown_plain|]. split; [|split].
  - intros k ctrl meta H. unfold handleKeyDown. simpl. rewrite H. simpl.
    now rewrite andb_false_r.
  - intros s H Hne. unfold handleInputChange. simpl.
    destruct s as [|c s]; [congruence|].
    unfold normalizeNumber, cleaned. now rewrite (typed_text_clean _ H).
  - intros before after H Hb Ha Hc.
    rewrite (separators_single_dot before after Hb Ha Hc).
    unfold exactlyThreeDigits.
    replace (forallb isDigit after) with true; [now rewrite andb_true_r|].
    symmetry. apply forallb_forall. intros c Hin.
    apply Forall_app in H as [_ H]. apply Forall_cons_iff in H as [_ H].
    rewrite List.Forall_forall in H. destruct (H c Hin) as [Hd|[->| ->]];
      [exact Hd | exfalso | exfalso].
    + rewrite includes_app in Hc. apply orb_false_iff in Hc as [_ Hc].
      simpl in Hc. apply includes_false_Forall in Hc.
      rewrite List.Forall_forall in Hc. now apply (Hc cu_comma).
    + apply includes_false_Forall in Ha.
      rewrite List.Forall_forall in Ha. now apply (Ha cu_dot).
Qed.

Lemma typed_text_normalisation_witness :
  handleKeyDown {| key := js "v"; ctrlKey := true; metaKey := false |} = false
  /\ snd (handleInputChange (js "1.234,5")) = 1234.5%float
  /\ separators (js "12.345") = js "12345"
  /\ handleKeyDown (plainKey cu_minus) = true.
Proof.
  destruct typed_text_normalisation as (_ & Hmod & Hin & Hdot).
  split; [|split; [|split]].
  - apply Hmod. reflexivity.
  - rewrite Hin; [vm_compute; reflexivity | | discriminate].
    repeat (apply List.Forall_cons; [vm_compute; auto|]).
    apply List.Forall_nil.
  - apply (Hdot (js "12") (js "345")); try reflexivity.
    repeat (apply List.Forall_cons; [vm_compute; auto|]).
    apply List.Forall_nil.
  - reflexivity.
Defined.

End CurrencyInputProps.

(** ** exportToCSV *)

Module CsvProps.
Import JS NormalizeSpec Csv.

Lemma includes_cons (c x : codeUnit) (s : jsstring) :
  includes c (x :: s) = (c =? x)%N || includes c s.
Proof. reflexivity. Qed.

Lemma includes_join (c sep : codeUnit) (xs : list jsstring) :
  c <> sep ->
  Forall (fun x => includes c x = false) xs ->
  includes c (join sep xs) = false.
Proof.
  intros Hne. induction xs as [|x xs IH]; intros H; [reflexivity|].
  apply Forall_cons_iff in H as [Hx H]. specialize (IH H).
  destruct xs as [|y xs]; [exact Hx|].
  change (join sep (x :: y :: xs)) with (x ++ sep :: join sep (y :: xs)).
  rewrite includes_app, Hx, includes_cons, IH.
  destruct (N.eqb_spec c sep); [contradiction | reflexivity].
Qed.

(** Splitting what was joined gives the pieces back, when there is at least
    one piece and none holds the separator. *)
Lemma split_join (sep : codeUnit) (xs : list jsstring) :
  xs <> [] ->
  Forall (fun x => includes sep x = false) xs ->
  split sep (join sep xs) = xs.
Proof.
  induction xs as [|x xs IH]; intros Hne H; [congruence|].
  apply Forall_cons_iff in H as [Hx H].
  destruct xs as [|y xs]; [now apply split_absent|].
  change (join sep (x :: y :: xs)) with (x ++ sep :: join sep (y :: xs)).
  rewrite (split_first _ _ _ Hx). f_equal. now apply IH.
Qed.

Section WithToString.

Variable numberToString : float -> jsstring.
Variable functionToString : jsstring -> jsstring.

(** No semicolon and no line feed. *)
Definition plain (x : jsstring) : Prop :=
  includes cu_semicolon x = false /\ includes cu_newline x = false.

(** The cells of a row, one per header: what [String(r[h] ?? "")] gives. *)
Definition cellsOf (headers : list jsstring) (r : row) : list jsstring :=
  List.map (fun h => cellText numberToString functionToString h r) headers.

(** X16: when the first row has at least one key and neither a key nor a
    written cell holds a semicolon or a line feed, cutting the text of
    [exportToCSV] at the line feeds and each line at the semicolons gives
    back the keys of the first row followed, for every row, by its cells
    under those keys; without rows the text is empty.  The cell of a row
    under a key is the text of its value; where the row lacks the key it is
    the text of what the row inherits under that name from
    [Object.prototype], and the empty text when there is no such thing. *)
Theorem csvText_round_trip (rows : list row) :
  (headersOf rows <> [] ->
   Forall plain (headersOf rows) ->
   Forall (fun r => Forall plain (cellsOf (headersOf rows) r)) rows ->
   List.map (split cu_semicolon)
     (split cu_newline (csvText numberToString functionToString rows))
   = headersOf rows :: List.map (cellsOf (headersOf rows)) rows)
  /\ csvText numberToString functionToString [] = []
  /\ (forall (h : jsstring) (r : row),
        (forall c, own h r = Some c ->
           cellText numberToString functionToString h r
           = match c with
             | CStr s => s
             | CNum n => numberToString n
             end)
        /\ (own h r = None ->
            existsb (CurrencyInput.sameText h)
              (js "__proto__" :: objectPrototypeMethods) = false ->
            cellText numberToString functionToString h r = [])
        /\ (own h r = None ->
            existsb (CurrencyInput.sameText h) objectPrototypeMethods = true ->
            cellText numberToString functionToString h r
            = functionToString h)).
Proof.
  split; [|split; [reflexivity|]].
  - intros Hne Hh Hc. unfold csvText.
    set (headers := headersOf rows) in *.
    assert (Hsn : cu_newline <> cu_semicolon) by discriminate.
    rewrite split_join.
    + simpl. f_equal.
      * apply split_join; [exact Hne|].
        eapply List.Forall_impl; [|exact Hh]. now intros x [H _].
      * rewrite List.map_map. apply List.map_ext_in. intros r Hr.
        fold (cellsOf headers r). apply split_join.
        -- unfold cellsOf. destruct headers; [congruence | discriminate].
        -- rewrite List.Forall_forall in Hc.
           eapply List.Forall_impl; [|exact (Hc r Hr)]. now intros x [H _].
    + discriminate.
    + apply List.Forall_cons.
      * apply includes_join; [exact Hsn|].
        eapply List.Forall_impl; [|exact Hh]. now intros x [_ H].
      * apply List.Forall_forall. intros line Hline.
        apply List.in_map_iff in Hline as (r & <- & Hr).
        apply includes_join; [exact Hsn|].
        rewrite List.Forall_forall in Hc.
        eapply List.Forall_impl; [|exact (Hc r Hr)]. now intros x [_ H].
  - intros h r. unfold cellText, get. split; [|split].
    + intros c ->. reflexivity.
    + intros -> H. cbn [existsb] in H. apply orb_false_iff in H as [Hp Hm].
      now rewrite Hm, Hp.
    + intros -> H. now rewrite H.
Qed.

End WithToString.

(** Two rows; the second lacks a key of the first and has one of its own. *)
Definition report : list row :=
  [ [(js "periodo", CStr (js "2024-05")); (js "rbr", CStr (js "96000"))];
    [(js "periodo", CStr (js "2024-06")); (js "rol", CStr (js "75000"))] ].

(** Two rows under a key that [Object.prototype] has too; the second has
    no value of its own under it. *)
Definition inheriting : list row :=
  [ [(js "valueOf", CStr (js "1")); (js "rbr", CNum 96000%float)];
    [(js "rbr", CNum 75000%float)] ].

(** The text one implementation gives for a built-in function. *)
Definition nativeCode (name : jsstring) : jsstring :=
  js "function " ++ name ++ js "() { [native code] }".

Lemma csvText_round_trip_witness :
  List.map (split cu_semicolon)
    (split cu_newline (csvText (fun _ => js "0") nativeCode report))
  = [ [js "periodo"; js "rbr"];
      [js "2024-05"; js "96000"];
      [js "2024-06"; js ""] ]
  /\ List.map (split cu_semicolon)
       (split cu_newline (csvText (fun _ => js "0") nativeCode inheriting))
     = [ [js "valueOf"; js "rbr"];
         [js "1"; js "0"];
         [js "function valueOf() { [native code] }"; js "0"] ].
Proof.
  split.
  - apply (proj1 (csvText_round_trip (fun _ => js "0") nativeCode report)).
    + discriminate.
    + repeat (apply List.Forall_cons; [split; reflexivity|]).
      apply List.Forall_nil.
    + repeat (apply List.Forall_cons;
              [repeat (apply List.Forall_cons; [split; reflexivity|]);
               apply List.Forall_nil|]).
      apply List.Forall_nil.
  - apply (proj1 (csvText_round_trip (fun _ => js "0") nativeCode inheriting)).
    + discriminate.
    + repeat (apply List.Forall_cons; [split; reflexivity|]).
      apply List.Forall_nil.
    + repeat (apply List.Forall_cons;
              [repeat (apply List.Forall_cons; [split; reflexivity|]);
               apply List.Forall_nil|]).
      apply List.Forall_nil.
Defined.

(** A cell with a semicolon is written as it is and reads as two cells. *)
Example semicolon_is_not_escaped :
  List.map (split cu_semicolon)
    (split cu_newline
       (csvText (fun _ => js "0") nativeCode [[(js "nota", CStr (js "a;b"))]]))
  = [[js "nota"]; [js "a"; js "b"]].
Proof. reflexivity. Qed.

End CsvProps.

(** ** The page *)

Module PageProps.
Import Data DataSpec GatewayProps Page.

(** X17: a reload after [handleLogin(u)] shows the dashboard of [u], when
    the lookup of the session finds nobody and [u] has an [id] and a
    [tenantId]; a reload after [handleLogout] shows the login form, when
    the sign-out went through or the lookup of the session finds nobody. *)
Theorem page_reload (link link' : Link) (w : World) (st : State) :
  (forall u : User.t,
     window (env w) = true ->
     noRemoteUser link' w ->
     User.id u <> "" ->
     User.tenantId u <> "" ->
     render (mount link' (fst (handleLogin link u w st))) = Dashboard u)
  /\ (link = Up \/ noRemoteUser link' w ->
      render (mount link' (fst (handleLogout link w st))) = LoginForm).
Proof.
  split.
  - intros u Hw Hn Hi Ht. unfold handleLogin, mount, loadUser. simpl.
    destruct (saveUser_world link u w Hw) as (He & Ha & Hl).
    rewrite getCurrentUser_fallback.
    + rewrite Hl, lookup_insert_eq.
      apply String.eqb_neq in Hi, Ht. now rewrite Hi, Ht.
    + now rewrite He.
    + unfold noRemoteUser in *. now rewrite He, Ha.
  - intros H. unfold handleLogout, mount, loadUser. simpl.
    now rewrite (proj2 (logout_clears link link' w) H).
Qed.

Lemma page_reload_witness :
  render (mount Down (fst (handleLogin Up sampleUser (fresh browser) initial)))
  = Dashboard sampleUser
  /\ render (mount Up (fst (handleLogout Up staySignedIn initial)))
     = LoginForm.
Proof.
  split.
  - apply (proj1 (page_reload Up Down (fresh browser) initial));
      [reflexivity | right; left; reflexivity | discriminate | discriminate].
  - apply (proj2 (page_reload Up Up staySignedIn initial)). now left.
Defined.

(** A sign-out that failed leaves the session: the next load signs the
    user in again. *)
Example failed_signout_keeps_session :
  render (mount Up (fst (handleLogout Down staySignedIn initial)))
  = Dashboard sampleUser.
Proof. reflexivity. Qed.

End PageProps.

(** ** Rejections and the order of the local list *)

Module FallbackProps.
Import Data DataSpec GatewayProps.

(** The entry is there and is not a JSON array. *)
Definition unusable (raw : option Item) : Prop :=
  raw = Some NotJson \/ raw = Some OtherJson \/ exists u, raw = Some (UserJson u).

Lemma parse_fails (raw : option Item) :
  parseArrayOrEmpty raw = None <-> unusable raw.
Proof.
  unfold unusable. destruct raw as [[arr|u| | |]|]; simpl; split;
    try discriminate; eauto;
    intros [H|[H|[u' H]]]; discriminate H.
Qed.

(** The remote insert of [saveAnalysis] is made and accepted. *)
Definition inserted (link : Link) (a : AnalysisData.t) (w : World) : Prop :=
  isSupabaseAvailable (env w) = true
  /\ link = Up
  /\ ¬ Exists (λ r, AnalysisData.id r = AnalysisData.id a)
         (historicodeanalise (supabase w)).

(** X18: what the fallback makes of the tenant's entry.  [saveAnalysis] is
    rejected exactly when it falls back to localStorage and the entry is
    there but is not a JSON array.  [deleteAnalysis] is rejected when it
    falls back on such an entry; it resolves when the request goes through,
    and when it falls back on an entry that is missing, empty or a JSON
    array of analysis records.  [loadAnalyses] reads an entry that is not a
    JSON array as the empty list and [syncLocalStorageToSupabase] leaves
    everything as it is. *)
Theorem fallback_rejections
  (link : Link) (a : AnalysisData.t) (i t : string) (w : World) :
  (saveAnalysis link a w = Rejected
   <-> window (env w) = true
       /\ ¬ inserted link a w
       /\ unusable (localStorage w !! analysesKey (AnalysisData.tenantId a)))
  /\ (served (env w) link = ViaLocalStorage ->
      unusable (localStorage w !! analysesKey t) ->
      deleteAnalysis link i t w = Rejected)
  /\ (served (env w) link ≠ ViaLocalStorage ->
      deleteAnalysis link i t w ≠ Rejected)
  /\ (forall arr : list AnalysisData.t,
        parseArrayOrEmpty (localStorage w !! analysesKey t) = Some arr ->
        deleteAnalysis link i t w ≠ Rejected)
  /\ (unusable (localStorage w !! analysesKey t) ->
      loaded ViaLocalStorage t w = []
      /\ syncLocalStorageToSupabase link t w = w).
Proof.
  split; [|split; [|split; [|split]]].
  - unfold saveAnalysis, inserted, insertRow. rewrite <- parse_fails.
    destruct (window (env w)); simpl;
      [|split; [discriminate | intros [H _]; discriminate H]].
    destruct (isSupabaseAvailable (env w)), link; simpl;
      try case_decide;
      destruct (parseArrayOrEmpty _); simpl;
      (split;
       [ intros Hs;
         first [ discriminate Hs
               | split; [reflexivity|]; split; [|reflexivity];
                 intros (Ha & Hl & Hn); first [discriminate | contradiction] ]
       | intros (_ & Hni & Hp);
         first [ discriminate Hp | reflexivity
               | exfalso; apply Hni; repeat split; auto ] ]).
  - intros Hs Hu. apply parse_fails in Hu.
    unfold deleteAnalysis, served in *.
    destruct (window (env w)); simpl in *; [|discriminate Hs].
    destruct (isSupabaseAvailable (env w)), link; simpl in *;
      try discriminate Hs; now rewrite Hu.
  - intros Hs. unfold deleteAnalysis, served in *.
    destruct (window (env w)); simpl in *; [|discriminate].
    destruct (isSupabaseAvailable (env w)), link; simpl in *;
      try discriminate; contradiction.
  - intros arr Harr. unfold deleteAnalysis.
    destruct (window (env w)); simpl; [|discriminate].
    destruct (isSupabaseAvailable (env w)), link; simpl;
      try rewrite Harr; discriminate.
  - intros H. unfold loaded, syncLocalStorageToSupabase.
    destruct H as [H|[H|[u H]]]; rewrite H; simpl;
      (split; [reflexivity|]);
      now destruct (isSupabaseAvailable (env w)).
Qed.

Definition corrupted : World :=
  setLocalStorage (<[analysesKey "acme" := NotJson]> ∅) (fresh browser).

Lemma fallback_rejections_witness :
  saveAnalysis Down (sample "a1" "acme") corrupted = Rejected
  /\ deleteAnalysis Down "a1" "acme" corrupted = Rejected
  /\ deleteAnalysis Up "a1" "acme" corrupted ≠ Rejected
  /\ deleteAnalysis Down "a1" "acme" unsynced ≠ Rejected
  /\ loadAnalyses Down "acme" corrupted = (ViaLocalStorage, [])
  /\ syncLocalStorageToSupabase Up "acme" corrupted = corrupted.
Proof.
  pose proof (fallback_rejections Down (sample "a1" "acme") "a1" "acme"
                corrupted) as (Hsave & Hdelete & _ & _ & Hread).
  split; [|split; [|split; [|split; [|split]]]].
  - apply (proj2 Hsave).
    split; [reflexivity|]. split; [|left; reflexivity].
    intros (_ & H & _). discriminate H.
  - apply Hdelete; [reflexivity | left; reflexivity].
  - apply (proj1 (proj2 (proj2 (fallback_rejections Up (sample "a1" "acme")
                                  "a1" "acme" corrupted)))).
    discriminate.
  - eapply (proj1 (proj2 (proj2 (proj2
              (fallback_rejections Down (sample "a1" "acme")
                 "a1" "acme" unsynced))))).
    vm_compute. reflexivity.
  - rewrite loadAnalyses_loaded.
    change (served (env corrupted) Down) with ViaLocalStorage.
    now rewrite (proj1 (Hread (or_introl eq_refl))).
  - apply (proj2 (proj2 (proj2 (proj2
             (fallback_rejections Up (sample "a1" "acme")
                "a1" "acme" corrupted))))).
    left; reflexivity.
Defined.








End FallbackProps.
